(** * BehaviorSync.make of u19_pipeline/ephys_element.py

    A shallow embedding of the population routine of the [BehaviorSync]
    table: it reads the NI-DAQ ("nidq") stream of a session, recovers the
    behavioural iteration boundaries from digital line 1 and records, for
    every probe insertion, the sampling rate found in that probe's sidecar.

    Python values are modelled as follows.
    - [float] is IEEE binary64, through the Standard Library's [spec_float]
      with [prec = 53] and [emax = 1024]; operations round as the hardware
      does.
    - [int] is [Z]; array indices ([int64]) are [Z] as well.
    - a [uint8] array element is a [byte]; an array is a list, a 2-D array a
      list of rows.
    - a [dict] from [str] to [str] is a [gmap string string].
    - exceptions are the constructors of [exn]; a statement that may raise
      yields a [result]. *)

From Stdlib Require Import ZArith QArith Qabs List String Ascii Lia Sorted.
From Stdlib Require Import Floats.SpecFloat DecimalString Strings.Byte.
From stdpp Require Import gmap strings.
Import ListNotations.

Open Scope string_scope.
Open Scope list_scope.
Open Scope Z_scope.

(** ** Exceptions and results *)

Inductive exn : Type :=
| IndexError
| KeyError (k : string)
| ValueError
| OverflowError
| OtherError (msg : string).

Inductive result (A : Type) : Type :=
| Ok (a : A)
| Raise (e : exn).
Arguments Ok {A} a.
Arguments Raise {A} e.

(** ** Python [float] *)

Module Py.

Definition prec : Z := 53.
Definition emax : Z := 1024.

Definition float : Type := spec_float.

(** [float(n)] for an [int] [n], and the implicit conversion of an [int]
    operand of a [float] operation. *)
Definition float_of_Z (n : Z) : float := binary_normalize prec emax n 0 false.

Definition fmul (x y : float) : float := SFmul prec emax x y.
Definition fsub (x y : float) : float := SFsub prec emax x y.
Definition fabs (x : float) : float := SFabs x.
(** [x > y] on floats: false as soon as one side is NaN. *)
Definition fgt (x y : float) : bool := SFltb y x.

(** The literal [0.5]. *)
Definition half : float := binary_normalize prec emax 1 (-1) false.

(** [int(x)]: truncation towards zero; NaN raises [ValueError], an infinity
    [OverflowError]. *)
Definition int (x : float) : result Z :=
  match x with
  | S754_zero _ => Ok 0
  | S754_infinity _ => Raise OverflowError
  | S754_nan => Raise ValueError
  | S754_finite s m e => Ok (cond_Zopp s (Z.shiftl (Zpos m) e))
  end.

Definition is_finite (x : float) : bool :=
  match x with
  | S754_zero _ | S754_finite _ _ _ => true
  | _ => false
  end.

(** [str(n)] for an [int], as ['{}'.format(n)] renders it. *)
Definition str_of_int (n : Z) : string := NilZero.string_of_int (Z.to_int n).

(** [xs[0]] on a list. *)
Definition index0 {A : Type} (xs : list A) : result A :=
  match xs with
  | x :: _ => Ok x
  | [] => Raise IndexError
  end.

(** [d[k]] on a dict. *)
Definition getitem (d : gmap string string) (k : string) : result string :=
  match d !! k with
  | Some v => Ok v
  | None => Raise (KeyError k)
  end.

End Py.

(** ** numpy on one-dimensional arrays *)

Module Np.

Definition uint8_to_Z (b : byte) : Z := Z.of_N (Byte.to_N b).

(** [np.double(a)] for a [uint8] array [a]. *)
Definition double (a : list byte) : list Py.float :=
  List.map (fun b => Py.float_of_Z (uint8_to_Z b)) a.

(** [np.diff(a)]: [out[j] = a[j+1] - a[j]], one element shorter than [a]
    (empty for an array of at most one element). *)
Fixpoint diff (a : list Py.float) : list Py.float :=
  match a with
  | x :: (y :: _) as tl => Py.fsub y x :: diff tl
  | _ => []
  end.

(** [np.abs(a)]. *)
Definition abs (a : list Py.float) : list Py.float := List.map Py.fabs a.

(** [a > t], elementwise. *)
Definition gt (a : list Py.float) (t : Py.float) : list bool :=
  List.map (fun x => Py.fgt x t) a.

(** [np.where(mask)[0]]: the indices at which [mask] holds, in increasing
    order. [i] is the index of the head of [mask]. *)
Fixpoint where_from (i : Z) (mask : list bool) : list Z :=
  match mask with
  | [] => []
  | true :: tl => i :: where_from (i + 1) tl
  | false :: tl => where_from (i + 1) tl
  end.

Definition where_ (mask : list bool) : list Z := where_from 0 mask.

(** [a[i, :]] for a 2-D array: the row, or [IndexError] when the array has no
    such row. *)
Definition row {A : Type} (a : list (list A)) (i : nat) : result (list A) :=
  match nth_error a i with
  | Some r => Ok r
  | None => Raise IndexError
  end.

End Np.

(** The expression of line 108 applied to the line-1 trace:
    [np.where(np.abs(np.diff(np.double(trace))) > 0.5)[0]]. *)
Definition edge_indices (trace : list byte) : list Z :=
  Np.where_ (Np.gt (Np.abs (Np.diff (Np.double trace))) Py.half).

(** ** Tables *)

(** A sidecar's key/value pairs, as [readMeta] returns them. *)
Abbreviation Meta := (gmap string string).

(** The primary key of an [ephys.EphysSession] row. *)
Abbreviation Key := (gmap string string).

(** A [ProbeInsertion] primary key: the session's key and the insertion
    number. *)
Record ProbeKey : Type := {
  probe_session : Key;
  insertion_number : Z
}.

(** A row of [BehaviorSync]. *)
Record BehaviorSyncRow : Type := {
  session_key : Key;
  nidq_sampling_rate : Py.float;
  iteration_index_nidq : list Z
}.

(** A row of the part table [BehaviorSync.ImecSamplingRate]. The value is
    what line 121 hands to [insert1]: the sidecar's string. *)
Record ImecSamplingRateRow : Type := {
  probe_key : ProbeKey;
  ephys_sampling_rate : string
}.

(** The two tables [make] writes to, as the rows handed to [insert1], in
    order. DataJoint's own checks on a row (duplicate keys, column types) are
    outside this file: every [insert1] appends its row. *)
Record Tables : Type := {
  BehaviorSync : list BehaviorSyncRow;
  ImecSamplingRate : list ImecSamplingRateRow
}.

Definition no_rows : Tables := {| BehaviorSync := []; ImecSamplingRate := [] |}.

(** ** What [make] calls outside this file

    The session's files and the helpers imported from [readSGLX], [pathlib]
    and DataJoint are the surroundings of [make]; every theorem about [make]
    holds whatever they return. *)

(** The memory map of a binary file: one row of [int16] words per saved
    channel. *)
Abbreviation RawData := (list (list Z)).

(** The array [ExtractDigital] returns: one row of [uint8] per requested
    line. *)
Abbreviation DigitalArray := (list (list byte)).

Record World : Type := {
  (** [(ephys.EphysSession & key).fetch1('ephys_directory')] *)
  fetch1_ephys_directory : Key -> result string;
  (** [list(pathlib.Path(dir).glob(pattern))] *)
  glob : string -> string -> list string;
  (** [float(s)] on a string: [None] is [ValueError]. *)
  float_of_str : string -> option Py.float;
  readMeta : string -> result Meta;
  SampRate : Meta -> result Py.float;
  makeMemMapRaw : string -> Meta -> result RawData;
  ExtractDigital :
    RawData -> Z -> Z -> Z -> list Z -> Meta -> result DigitalArray;
  (** [(ephys_element.ProbeInsertion & key).fetch('KEY')] *)
  fetch_ProbeInsertion : Key -> list ProbeKey
}.

(** ** The monad of [make]: table state and exceptions *)

Definition M (A : Type) : Type := Tables -> Tables * result A.

#[global] Instance M_ret : MRet M := fun A a db => (db, Ok a).

#[global] Instance M_bind : MBind M := fun A B f m db =>
  match m db with
  | (db', Ok a) => f a db'
  | (db', Raise e) => (db', Raise e)
  end.

(** A pure step that may raise. *)
Definition lift {A : Type} (r : result A) : M A := fun db => (db, r).

(** [self.insert1(row)] *)
Definition insert1 (row : BehaviorSyncRow) : M unit := fun db =>
  ({| BehaviorSync := BehaviorSync db ++ [row];
      ImecSamplingRate := ImecSamplingRate db |}, Ok tt).

(** [self.ImecSamplingRate.insert1(row)] *)
Definition ImecSamplingRate_insert1 (row : ImecSamplingRateRow) : M unit :=
  fun db =>
  ({| BehaviorSync := BehaviorSync db;
      ImecSamplingRate := ImecSamplingRate db ++ [row] |}, Ok tt).

(** [for x in xs: body(x)] *)
Fixpoint for_each {A : Type} (xs : list A) (body : A -> M unit) : M unit :=
  match xs with
  | [] => mret tt
  | x :: tl => body x ;; for_each tl body
  end.

(** ** The source *)

(** [get_session_directory], lines 54-56. *)
Definition get_session_directory (W : World) (session_key : Key)
  : result string :=
  fetch1_ephys_directory W session_key.

(** [np.float(s)] of line 93: the builtin [float]. *)
Definition np_float (W : World) (s : string) : result Py.float :=
  match float_of_str W s with
  | Some x => Ok x
  | None => Raise ValueError
  end.

(** The body of the loop of lines 115-121. *)
Definition record_probe_rate (W : World) (session_dir : string)
    (probe_insertion : ProbeKey) : M unit :=
  imec_bin_filepath ←
    lift (Py.index0
           (glob W session_dir
              ("*imec" ++ Py.str_of_int (insertion_number probe_insertion)
                 ++ "/*.ap.bin")%string));
  imec_meta ← lift (readMeta W imec_bin_filepath);
  imSampRate ← lift (Py.getitem imec_meta "imSampRate");
  ImecSamplingRate_insert1
    {| probe_key := probe_insertion; ephys_sampling_rate := imSampRate |}.

(** [BehaviorSync.make], lines 86-121. *)
Definition make (W : World) (key : Key) : M unit :=
  session_dir ← lift (get_session_directory W key);
  nidq_bin_full_path ← lift (Py.index0 (glob W session_dir "*nidq.bin*"));
  (* load meta data *)
  nidq_meta ← lift (readMeta W nidq_bin_full_path);
  let t_start := 0 in
  fileTimeSecs ← lift (Py.getitem nidq_meta "fileTimeSecs");
  t_end ← lift (np_float W fileTimeSecs);
  let dw := 0 in
  let d_line_list := [0; 1; 2; 3; 4; 5; 6; 7] in
  nidq_sampling_rate ← lift (SampRate W nidq_meta);
  first_sample_index ←
    lift (Py.int (Py.fmul nidq_sampling_rate (Py.float_of_Z t_start)));
  last_plus_one ← lift (Py.int (Py.fmul nidq_sampling_rate t_end));
  let last_sample_index := last_plus_one - 1 in
  (* raw bin data *)
  nidq_raw_data ← lift (makeMemMapRaw W nidq_bin_full_path nidq_meta);
  (* extract iteration index *)
  digital_array ←
    lift (ExtractDigital W nidq_raw_data first_sample_index last_sample_index
           dw d_line_list nidq_meta);
  line1 ← lift (Np.row digital_array 1);
  let iteration_index_nidq := edge_indices line1 in
  insert1 {| session_key := key;
             nidq_sampling_rate := nidq_sampling_rate;
             iteration_index_nidq := iteration_index_nidq |} ;;
  (* get the imec sampling rate for a particular probe *)
  for_each (fetch_ProbeInsertion W key) (record_probe_rate W session_dir).

(** ** Concrete sessions

    The helpers of [readSGLX] are not part of this file's source; to run
    [make] on concrete sessions they are given the behaviour the
    specification describes. *)

Module Fixture.

Definition digit_of_ascii (c : ascii) : option Z :=
  let n := Z.of_N (N_of_ascii c) in
  if (48 <=? n) && (n <=? 57) then Some (n - 48) else None.

(** Reads a run of decimal digits: the value accumulated on [acc], the number
    of digits read, and the rest of the string. *)
Fixpoint read_digits (s : string) (acc : Z) (cnt : nat) : Z * nat * string :=
  match s with
  | String c tl =>
      match digit_of_ascii c with
      | Some d => read_digits tl (10 * acc + d) (S cnt)
      | None => (acc, cnt, s)
      end
  | EmptyString => (acc, cnt, s)
  end.

(** [float(s)] on the decimal literals [[+-]digits[.digits]] (no exponent, no
    blanks): the quotient of the digits by a power of ten, rounded once to
    binary64. Every other string is refused. *)
Definition decimal_float (s : string) : option Py.float :=
  let '(neg, body) :=
    match s with
    | String "-" tl => (true, tl)
    | String "+" tl => (false, tl)
    | _ => (false, s)
    end in
  let '(n1, c1, r1) := read_digits body 0 0 in
  let '(n, c2, r2) :=
    match r1 with
    | String "." tl => read_digits tl n1 0
    | _ => (n1, 0%nat, r1)
    end in
  match r2, (c1 + c2)%nat, n with
  | EmptyString, S _, Z0 => Some (S754_zero neg)
  | EmptyString, S _, Zpos p =>
      Some (SFdiv Py.prec Py.emax (S754_finite neg p 0)
              (S754_finite false (Z.to_pos (10 ^ Z.of_nat c2)) 0))
  | _, _, _ => None
  end.

(** Modelled from the spec: [readSGLX.SampRate] is not in the source. The
    sampling rate is the float value of the stream's acquisition-rate key
    ([niSampRate] for the primary stream, see line 74). *)
Definition sglx_SampRate (rate_key : string) (meta : Meta)
  : result Py.float :=
  match Py.getitem meta rate_key with
  | Ok v =>
      match decimal_float v with
      | Some x => Ok x
      | None => Raise (OtherError "MetadataParseError")
      end
  | Raise _ => Raise (OtherError "MetadataParseError")
  end.

(** [(w >> l) & 1] as a [uint8]. *)
Definition line_bit (l w : Z) : byte :=
  if Z.testbit w l then x01 else x00.

(** Modelled from the spec: [readSGLX.ExtractDigital] is not in the source.
    One trace per requested line over the samples [first..last] of digital
    word [dw]; the logic value of line [l] in word [w] is [(w >> l) & 1].
    A range outside the recording is a [RangeError], a line outside [0..15]
    an [InvalidLineError]. In these sessions the saved channels are the
    digital words. *)
Definition sglx_ExtractDigital (raw : RawData) (first last dw : Z)
    (lines : list Z) (meta : Meta) : result DigitalArray :=
  match (if 0 <=? dw then nth_error raw (Z.to_nat dw) else None) with
  | None => Raise (OtherError "RangeError")
  | Some words =>
      if (first <? 0) || (Z.of_nat (length words) <=? last) then
        Raise (OtherError "RangeError")
      else if negb (forallb (fun l => (0 <=? l) && (l <? 16)) lines) then
        Raise (OtherError "InvalidLineError")
      else
        let sel :=
          firstn (Z.to_nat (last - first + 1)) (skipn (Z.to_nat first) words) in
        Ok (List.map (fun l => List.map (line_bit l) sel) lines)
  end.

(** A session directory: what each glob pattern lists, the parsed sidecar of
    each binary file, the content of each binary file and the insertion
    numbers of the session's probes. *)
Record Session : Type := {
  directory : string;
  listing : gmap string (list string);
  sidecars : gmap string Meta;
  recordings : gmap string RawData;
  probes : list Z
}.

(** Modelled from the spec: [readSGLX.readMeta] is not in the source. The
    sidecar of a binary file is parsed into its key/value pairs; a missing
    sidecar is a [MetadataParseError]. *)
Definition sglx_readMeta (S : Session) (path : string) : result Meta :=
  match sidecars S !! path with
  | Some meta => Ok meta
  | None => Raise (OtherError "MetadataParseError")
  end.

(** Modelled from the spec: [readSGLX.makeMemMapRaw] is not in the source.
    The binary file is opened as a matrix of samples; a file that does not
    fit the declared geometry is a [CorruptRecordingError]. *)
Definition sglx_makeMemMapRaw (S : Session) (path : string) (meta : Meta)
  : result RawData :=
  match recordings S !! path with
  | Some raw => Ok raw
  | None => Raise (OtherError "CorruptRecordingError")
  end.

Definition world (S : Session) : World := {|
  fetch1_ephys_directory := fun _ => Ok (directory S);
  glob := fun dir pattern =>
    if String.eqb dir (directory S)
    then default [] (listing S !! pattern) else [];
  float_of_str := decimal_float;
  readMeta := sglx_readMeta S;
  SampRate := sglx_SampRate "niSampRate";
  makeMemMapRaw := sglx_makeMemMapRaw S;
  ExtractDigital := sglx_ExtractDigital;
  fetch_ProbeInsertion := fun key =>
    List.map (fun n => {| probe_session := key; insertion_number := n |})
      (probes S)
|}.

End Fixture.

(** ** The vocabulary of the specification *)

(** The indices [a, a+1, ..., a+n-1]. *)
Fixpoint zrange (a : Z) (n : nat) : list Z :=
  match n with
  | O => []
  | S n' => a :: zrange (a + 1) n'
  end.

(** The logic level of a sample as an exact number. *)
Definition level (b : byte) : Q := inject_Z (Np.uint8_to_Z b).

(** [abs(d) > 0.5] in exact arithmetic. *)
Definition exceeds_half (d : Q) : bool := negb (Qle_bool (Qabs d) (1 # 2)).

(** [trace[i]] for an index within the trace. *)
Definition sample (trace : list byte) (i : Z) : byte :=
  nth (Z.to_nat i) trace x00.

(** [abs(trace[i] - trace[i-1]) > 0.5]: sample [i] is the first one after a
    rising or falling edge. *)
Definition is_transition (trace : list byte) (i : Z) : bool :=
  exceeds_half (level (sample trace i) - level (sample trace (i - 1))).

(** The ordered sequence of every index [i] of the trace, [1 <= i < len],
    with [abs(trace[i] - trace[i-1]) > 0.5]: the sequence the specification
    names. *)
Definition transition_positions (trace : list byte) : list Z :=
  List.filter (is_transition trace) (zrange 1 (length trace - 1)).

(** [trace[j+1]] differs from [trace[j]] by more than [0.5]: sample [j] is
    the last one before an edge. *)
Definition precedes_transition (trace : list byte) (j : Z) : bool :=
  exceeds_half (level (sample trace (j + 1)) - level (sample trace j)).

(** The distances between consecutive elements of a sequence. *)
Fixpoint gaps (l : list Z) : list Z :=
  match l with
  | x :: (y :: _) as tl => (y - x) :: gaps tl
  | _ => []
  end.

(** A square wave of period [P] samples over [N] samples: in each period the
    line is low for the first [P / 2] samples and high for the rest; sample
    [0] is [phase] samples into a period. *)
Definition square_level (P phase i : Z) : byte :=
  if (i + phase) mod P <? P / 2 then x00 else x01.

Definition square_wave (P phase : Z) (N : nat) : list byte :=
  List.map (square_level P phase) (zrange 0 N).

(** The 256 values of a [uint8]. *)
Definition all_bytes : list byte :=
  List.map (fun n => default x00 (Byte.of_N (N.of_nat n))) (seq 0 256).

(** The test of line 108 on two consecutive samples [x], [y], in binary64:
    [abs(double(y) - double(x)) > 0.5]. *)
Definition float_step (x y : byte) : bool :=
  Py.fgt
    (Py.fabs (Py.fsub (Py.float_of_Z (Np.uint8_to_Z y))
                (Py.float_of_Z (Np.uint8_to_Z x))))
    Py.half.

(** The same test in exact arithmetic. *)
Definition exact_step (x y : byte) : bool := exceeds_half (level y - level x).

(** ** Parts of [make], named to state what it does *)

(** The digital lines requested at line 95. *)
Definition d_line_list : list Z := [0; 1; 2; 3; 4; 5; 6; 7].

(** The glob pattern of a probe's binary file, lines 116-117. *)
Definition imec_pattern (probe_insertion : ProbeKey) : string :=
  ("*imec" ++ Py.str_of_int (insertion_number probe_insertion)
     ++ "/*.ap.bin")%string.

(** Lines 108-121 as a function of what [ExtractDigital] returned; [make]
    is shown below to end in it. *)
Definition after_extraction (W : World) (key : Key) (session_dir : string)
    (nidq_sampling_rate : Py.float) (extracted : result DigitalArray)
  : M unit :=
  digital_array ← lift extracted;
  line1 ← lift (Np.row digital_array 1);
  insert1 {| session_key := key;
             nidq_sampling_rate := nidq_sampling_rate;
             iteration_index_nidq := edge_indices line1 |} ;;
  for_each (fetch_ProbeInsertion W key) (record_probe_rate W session_dir).

(** The tables after the primary row and the given probe rows are added. *)
Definition with_rows (db : Tables) (primary : list BehaviorSyncRow)
    (rates : list ImecSamplingRateRow) : Tables :=
  {| BehaviorSync := BehaviorSync db ++ primary;
     ImecSamplingRate := ImecSamplingRate db ++ rates |}.

(** The probe's binary file is found, its sidecar is read and holds [v] under
    [imSampRate]. *)
Definition probe_present (W : World) (session_dir : string)
    (probe_insertion : ProbeKey) (v : string) : Prop :=
  exists path others meta,
    glob W session_dir (imec_pattern probe_insertion) = path :: others
    /\ readMeta W path = Ok meta
    /\ meta !! "imSampRate" = Some v.

(** No file matches the probe's pattern. *)
Definition probe_missing (W : World) (session_dir : string)
    (probe_insertion : ProbeKey) : Prop :=
  glob W session_dir (imec_pattern probe_insertion) = [].

(** The rows of the probes [ps] with the values [vs]. *)
Definition rate_rows (ps : list ProbeKey) (vs : list string)
  : list ImecSamplingRateRow :=
  List.map (fun pv => {| probe_key := fst pv; ephys_sampling_rate := snd pv |})
    (combine ps vs).

(** Two worlds that differ at most in the content of the binary files: they
    agree on the directory, its listing, the sidecars and the probes. *)
Definition same_metadata (W1 W2 : World) : Prop :=
  (forall key, fetch1_ephys_directory W1 key = fetch1_ephys_directory W2 key)
  /\ (forall dir pattern, glob W1 dir pattern = glob W2 dir pattern)
  /\ (forall s, float_of_str W1 s = float_of_str W2 s)
  /\ (forall path, readMeta W1 path = readMeta W2 path)
  /\ (forall meta, SampRate W1 meta = SampRate W2 meta)
  /\ (forall key, fetch_ProbeInsertion W1 key = fetch_ProbeInsertion W2 key).

(** Lines 87-108 run without an exception: the primary stream's files are
    found, its metadata parse, and the extraction over the computed range
    returns an array whose row 1 is [line1]. *)
Definition primary_stream_ok (W : World) (key : Key) (session_dir : string)
    (rate : Py.float) (line1 : list byte) : Prop :=
  exists nidq_bin others nidq_meta fileTimeSecs t_end first last_plus_one
         raw digital_array,
    fetch1_ephys_directory W key = Ok session_dir
    /\ glob W session_dir "*nidq.bin*" = nidq_bin :: others
    /\ readMeta W nidq_bin = Ok nidq_meta
    /\ nidq_meta !! "fileTimeSecs" = Some fileTimeSecs
    /\ float_of_str W fileTimeSecs = Some t_end
    /\ SampRate W nidq_meta = Ok rate
    /\ Py.int (Py.fmul rate (Py.float_of_Z 0)) = Ok first
    /\ Py.int (Py.fmul rate t_end) = Ok last_plus_one
    /\ makeMemMapRaw W nidq_bin nidq_meta = Ok raw
    /\ ExtractDigital W raw first (last_plus_one - 1) 0 d_line_list nidq_meta
       = Ok digital_array
    /\ nth_error digital_array 1 = Some line1.

(** The row [make] inserts into [BehaviorSync]. *)
Definition primary_row (key : Key) (rate : Py.float) (line1 : list byte)
  : BehaviorSyncRow :=
  {| session_key := key;
     nidq_sampling_rate := rate;
     iteration_index_nidq := edge_indices line1 |}.

(** The positions at which a square wave changes level: the starts of its
    low and of its high half-periods. *)
Definition is_boundary (P t : Z) : bool :=
  (t mod P =? 0) || (t mod P =? P / 2).

(** ** Sessions to run [make] on *)

Module Demo.

Definition key : Key := {[ "session_number" := "1" ]}.

Definition dir : string := "/data/s1".

Definition nidq_bin : string := "/data/s1/run_g0_t0.nidq.bin".

Definition imec_bin (n : Z) : string :=
  ("/data/s1/run_g0_imec" ++ Py.str_of_int n ++ "/run_g0_t0.imec"
     ++ Py.str_of_int n ++ ".ap.bin")%string.

Definition probe (n : Z) : ProbeKey :=
  {| probe_session := key; insertion_number := n |}.

(** The value of a decimal literal. *)
Definition float (s : string) : Py.float :=
  default S754_nan (Fixture.decimal_float s).

Definition nidq_meta (secs rate : string) : Meta :=
  {[ "fileTimeSecs" := secs; "niSampRate" := rate ]}.

(** A session whose primary recording lasts [secs] seconds at [rate] Hz and
    holds the digital words [words]; [present] lists the probes whose binary
    file exists, with the [imSampRate] of their sidecar; [declared] lists the
    insertion numbers of the session. *)
Definition session (secs rate : string) (words : list Z)
    (present : list (Z * string)) (declared : list Z) : Fixture.Session :=
  {| Fixture.directory := dir;
     Fixture.listing :=
       <[ "*nidq.bin*" := [nidq_bin] ]>
         (list_to_map
            (List.map (fun nv => (imec_pattern (probe (fst nv)),
                                  [imec_bin (fst nv)])) present));
     Fixture.sidecars :=
       <[ nidq_bin := nidq_meta secs rate ]>
         (list_to_map
            (List.map (fun nv => (imec_bin (fst nv),
                                  {[ "imSampRate" := snd nv ]})) present));
     Fixture.recordings := {[ nidq_bin := [words] ]};
     Fixture.probes := declared |}.

(** Digital words whose line 1 carries [trace], the other lines low. *)
Definition words_of_line1 (trace : list byte) : list Z :=
  List.map (fun b => 2 * Np.uint8_to_Z b) trace.

(** The array [Fixture.sglx_ExtractDigital] yields for all of [words]. *)
Definition lines_of (words : list Z) : DigitalArray :=
  List.map (fun l => List.map (Fixture.line_bit l) words) d_line_list.

(** Eight samples at 1000 Hz, three edges on line 1, two probes. *)
Definition short_words : list Z := [0; 0; 2; 2; 3; 1; 1; 2].
Definition short_line1 : list byte :=
  [x00; x00; x01; x01; x01; x00; x00; x01].
Definition two_probes : World :=
  Fixture.world
    (session "0.008" "1000" short_words
       [(0, "30000.5"); (1, "29999.8")] [0; 1]).

(** The same line 1 with other levels on lines 0 and 2-7. *)
Definition other_words : list Z := [5; 8; 15; 3; 2; 0; 1; 3].
Definition two_probes_other_lines : World :=
  Fixture.world
    (session "0.008" "1000" other_words
       [(0, "30000.5"); (1, "29999.8")] [0; 1]).

(** Two probes declared; the binary file of probe 0 is missing. *)
Definition probe0_missing : World :=
  Fixture.world
    (session "0.008" "1000" short_words [(1, "29999.8")] [0; 1]).

(** Three probes declared; the binary file of probe 1 is missing. *)
Definition probe1_missing : World :=
  Fixture.world
    (session "0.008" "1000" short_words
       [(0, "30000.5"); (2, "30000.1")] [0; 1; 2]).

(** The sidecar of probe 0 holds a rate that is not a number. *)
Definition bad_probe_rate : World :=
  Fixture.world (session "0.008" "1000" short_words [(0, "abc")] [0]).

(** The primary sidecar holds a duration that is not a number. *)
Definition bad_duration : World :=
  Fixture.world (session "ten" "1000" short_words [(0, "30000.5")] [0]).

(** Ten seconds at 1000 Hz; line 1 is a square wave of five periods of 2000
    samples, [phase] samples into a period at the first sample. *)
Definition five_cycles (phase : Z) : World :=
  Fixture.world
    (session "10.0" "1000"
       (words_of_line1 (square_wave 2000 phase (Z.to_nat 10000))) [] []).

(** A recording of zero seconds. *)
Definition zero_duration : World :=
  Fixture.world (session "0" "1000" [] [(0, "30000.5")] [0]).

(** Line 1 stays low. *)
Definition flat_line : World :=
  Fixture.world
    (session "0.008" "1000" [1; 0; 4; 4; 5; 1; 0; 0] [(0, "30000.5")] [0]).

End Demo.

(** ** More of the module and of [make] *)

(** The mask of line 108: [np.abs(np.diff(np.double(trace))) > 0.5]. *)
Definition edge_mask (trace : list byte) : list bool :=
  Np.gt (Np.abs (Np.diff (Np.double trace))) Py.half.

(** A trace of a digital line: every sample is 0 or 1. *)
Definition is_binary (trace : list byte) : Prop :=
  List.Forall (fun b => b = x00 \/ b = x01) trace.

(** The other level of a digital line. *)
Definition toggle (b : byte) : byte := if Byte.eqb b x00 then x01 else x00.

(** The trace of [n] samples that starts at [level], sample [i] being the
    first, and changes level after each index of [edges]. *)
Fixpoint rebuild_from (i : Z) (level : byte) (n : nat) (edges : list Z)
  : list byte :=
  match n with
  | O => []
  | S n' =>
      level ::
      match edges with
      | e :: es =>
          if e =? i then rebuild_from (i + 1) (toggle level) n' es
          else rebuild_from (i + 1) level n' edges
      | [] => rebuild_from (i + 1) level n' []
      end
  end.

(** The first and the last sample of a trace. *)
Definition first_sample (trace : list byte) : byte := hd x00 trace.
Definition last_sample (trace : list byte) : byte := List.last trace x00.

(** The expression of line 99: [int(nidq_sampling_rate * t_end) - 1]. *)
Definition last_sample_index (rate t_end : Py.float) : result Z :=
  match Py.int (Py.fmul rate t_end) with
  | Ok n => Ok (n - 1)
  | Raise e => Raise e
  end.

(** The sign bit of a float that is not NaN. *)
Definition signbit (x : Py.float) : bool :=
  match x with
  | S754_zero s | S754_infinity s | S754_finite s _ _ => s
  | S754_nan => false
  end.

(** One turn of the loop of lines 115-121 raises [e]: the probe's binary
    file is not found, or its sidecar cannot be read, or the sidecar has no
    [imSampRate]. *)
Definition probe_fails (W : World) (session_dir : string)
    (probe_insertion : ProbeKey) (e : exn) : Prop :=
  (glob W session_dir (imec_pattern probe_insertion) = [] /\ e = IndexError)
  \/ (exists path others,
        glob W session_dir (imec_pattern probe_insertion) = path :: others
        /\ (readMeta W path = Raise e
            \/ exists meta,
                 readMeta W path = Ok meta
                 /\ meta !! "imSampRate" = None
                 /\ e = KeyError "imSampRate")).

(** The world [W] with another directory listing. *)
Definition with_glob (W : World) (g : string -> string -> list string)
  : World :=
  {| fetch1_ephys_directory := fetch1_ephys_directory W;
     glob := g;
     float_of_str := float_of_str W;
     readMeta := readMeta W;
     SampRate := SampRate W;
     makeMemMapRaw := makeMemMapRaw W;
     ExtractDigital := ExtractDigital W;
     fetch_ProbeInsertion := fetch_ProbeInsertion W |}.

(** The entries of [dj.config] the module reads: ['database.prefix'] and the
    dict under ['custom'], each possibly absent. *)
Record Config : Type := {
  database_prefix : option string;
  custom : option (gmap string string)
}.

(** [pathlib.Path(s)]. *)
Inductive Path : Type := PathOf (s : string).

(** [dj.config['database.prefix']]. *)
Definition config_prefix (config : Config) : result string :=
  match database_prefix config with
  | Some p => Ok p
  | None => Raise (KeyError "database.prefix")
  end.

(** Lines 31, 32 and 37: the names of the three schemas. *)
Definition probe_schema_name (config : Config) : result string :=
  match config_prefix config with
  | Ok p => Ok (p ++ "probe_element")%string
  | Raise e => Raise e
  end.

Definition ephys_schema_name (config : Config) : result string :=
  match config_prefix config with
  | Ok p => Ok (p ++ "ephys_element")%string
  | Raise e => Raise e
  end.

Definition reference_schema_name (config : Config) : result string :=
  match config_prefix config with
  | Ok p => Ok (p ++ "reference")%string
  | Raise e => Raise e
  end.

(** [get_ephys_root_data_dir], lines 49-51. [None] is Python's [None]; an
    empty string is falsy. *)
Definition get_ephys_root_data_dir (config : Config) : option Path :=
  let data_dir := default ∅ (custom config) !! "ephys_root_data_dir" in
  match data_dir with
  | Some d => if String.eqb d "" then None else Some (PathOf d)
  | None => None
  end.

(** The inverted line: 0 and 1 exchanged, any other value kept. *)
Definition invert_line (b : byte) : byte :=
  if Byte.eqb b x00 then x01 else if Byte.eqb b x01 then x00 else b.

(** Classes of floats. *)
Definition float_is_nan (x : Py.float) : bool :=
  match x with S754_nan => true | _ => false end.

Definition float_is_inf (x : Py.float) : bool :=
  match x with S754_infinity _ => true | _ => false end.

Definition float_is_zero (x : Py.float) : bool :=
  match x with S754_zero _ => true | _ => false end.

(** The world [W] with another [float], [SampRate] or [ExtractDigital]. *)
Definition with_float_of_str (W : World) (f : string -> option Py.float)
  : World :=
  {| fetch1_ephys_directory := fetch1_ephys_directory W;
     glob := glob W;
     float_of_str := f;
     readMeta := readMeta W;
     SampRate := SampRate W;
     makeMemMapRaw := makeMemMapRaw W;
     ExtractDigital := ExtractDigital W;
     fetch_ProbeInsertion := fetch_ProbeInsertion W |}.

Definition with_SampRate (W : World) (f : Meta -> result Py.float) : World :=
  {| fetch1_ephys_directory := fetch1_ephys_directory W;
     glob := glob W;
     float_of_str := float_of_str W;
     readMeta := readMeta W;
     SampRate := f;
     makeMemMapRaw := makeMemMapRaw W;
     ExtractDigital := ExtractDigital W;
     fetch_ProbeInsertion := fetch_ProbeInsertion W |}.

Definition with_ExtractDigital (W : World)
    (f : RawData -> Z -> Z -> Z -> list Z -> Meta -> result DigitalArray)
  : World :=
  {| fetch1_ephys_directory := fetch1_ephys_directory W;
     glob := glob W;
     float_of_str := float_of_str W;
     readMeta := readMeta W;
     SampRate := SampRate W;
     makeMemMapRaw := makeMemMapRaw W;
     ExtractDigital := f;
     fetch_ProbeInsertion := fetch_ProbeInsertion W |}.

(** ** More sessions to run [make] on *)

Module Cases.

(** An empty session directory. *)
Definition empty_directory : World :=
  Fixture.world
    {| Fixture.directory := Demo.dir;
       Fixture.listing := ∅;
       Fixture.sidecars := ∅;
       Fixture.recordings := ∅;
       Fixture.probes := [0] |}.

(** The primary sidecar has no [fileTimeSecs]. *)
Definition no_duration_key : World :=
  Fixture.world
    {| Fixture.directory := Demo.dir;
       Fixture.listing := {[ "*nidq.bin*" := [Demo.nidq_bin] ]};
       Fixture.sidecars :=
         {[ Demo.nidq_bin := {[ "niSampRate" := "1000" ]} ]};
       Fixture.recordings := {[ Demo.nidq_bin := [Demo.short_words] ]};
       Fixture.probes := [0] |}.

(** Three probes; the sidecar of probe 1 has no [imSampRate]. *)
Definition probe1_no_rate_key : World :=
  Fixture.world
    {| Fixture.directory := Demo.dir;
       Fixture.listing :=
         {[ "*nidq.bin*" := [Demo.nidq_bin];
            imec_pattern (Demo.probe 0) := [Demo.imec_bin 0];
            imec_pattern (Demo.probe 1) := [Demo.imec_bin 1];
            imec_pattern (Demo.probe 2) := [Demo.imec_bin 2] ]};
       Fixture.sidecars :=
         {[ Demo.nidq_bin := Demo.nidq_meta "0.008" "1000";
            Demo.imec_bin 0 := {[ "imSampRate" := "30000.5" ]};
            Demo.imec_bin 1 := {[ "imDatPrb_type" := "0" ]};
            Demo.imec_bin 2 := {[ "imSampRate" := "30000.1" ]} ]};
       Fixture.recordings := {[ Demo.nidq_bin := [Demo.short_words] ]};
       Fixture.probes := [0; 1; 2] |}.

(** The primary binary file cannot be mapped. *)
Definition unmappable : World :=
  Fixture.world
    {| Fixture.directory := Demo.dir;
       Fixture.listing := {[ "*nidq.bin*" := [Demo.nidq_bin] ]};
       Fixture.sidecars :=
         {[ Demo.nidq_bin := Demo.nidq_meta "0.008" "1000" ]};
       Fixture.recordings := ∅;
       Fixture.probes := [0] |}.

(** [ExtractDigital] returns a single line. *)
Definition one_line : World :=
  with_ExtractDigital Demo.two_probes
    (fun _ _ _ _ _ _ => Ok [[x00; x01; x00]]).

(** [float] as Python has it on the words [inf] and [nan]. *)
Definition special_float (s : string) : option Py.float :=
  if String.eqb s "inf" then Some (S754_infinity false)
  else if String.eqb s "nan" then Some S754_nan
  else Fixture.decimal_float s.

(** The primary sidecar declares [fileTimeSecs=inf]. *)
Definition infinite_duration : World :=
  with_float_of_str
    (Fixture.world (Demo.session "inf" "1000" Demo.short_words [] []))
    special_float.

(** Every pattern with a match in [Demo.two_probes] has a second one. *)
Definition more_matches (dir pattern : string) : list string :=
  match glob Demo.two_probes dir pattern with
  | [] => []
  | first :: others => first :: others ++ [(first ++ ".bak")%string]
  end.

Definition two_matches : World := with_glob Demo.two_probes more_matches.

(** A recording declared to last minus eight milliseconds. *)
Definition negative_duration : World :=
  Fixture.world (Demo.session "-0.008" "1000" Demo.short_words [] []).

End Cases.

(** * [make] on the demo sessions *)

Example edge_indices_short_line1 : edge_indices Demo.short_line1 = [1; 4; 6].
Proof. vm_compute. reflexivity. Qed.

Example make_two_probes :
  make Demo.two_probes Demo.key no_rows
  = ({| BehaviorSync :=
          [{| session_key := Demo.key;
              nidq_sampling_rate := Py.float_of_Z 1000;
              iteration_index_nidq := [1; 4; 6] |}];
        ImecSamplingRate :=
          [{| probe_key := Demo.probe 0; ephys_sampling_rate := "30000.5" |};
           {| probe_key := Demo.probe 1; ephys_sampling_rate := "29999.8" |}]
     |}, Ok tt).
Proof. vm_compute. reflexivity. Qed.

Example make_zero_duration :
  make Demo.zero_duration Demo.key no_rows
  = ({| BehaviorSync :=
          [{| session_key := Demo.key;
              nidq_sampling_rate := Py.float_of_Z 1000;
              iteration_index_nidq := [] |}];
        ImecSamplingRate :=
          [{| probe_key := Demo.probe 0; ephys_sampling_rate := "30000.5" |}]
     |}, Ok tt).
Proof. vm_compute. reflexivity. Qed.

Example imec_pattern_probe_3 : imec_pattern (Demo.probe 3) = "*imec3/*.ap.bin".
Proof. reflexivity. Qed.

Example decimal_float_tenth :
  Fixture.decimal_float "0.1" = Some (S754_finite false 7205759403792794 (-56)).
Proof. vm_compute. reflexivity. Qed.

(** * Edge detection *)

Lemma all_bytes_complete (b : byte) : In b all_bytes.
Proof.
  assert (H : existsb (Byte.eqb b) all_bytes = true)
    by (destruct b; vm_compute; reflexivity).
  apply existsb_exists in H. destruct H as (x & Hin & Heq).
  apply Byte.byte_dec_bl in Heq. now subst x.
Qed.

(** On [uint8] samples the binary64 test of line 108 and the exact test agree,
    and both hold exactly when the two samples differ: checked on all
    [256 * 256] pairs. *)
Lemma float_step_table :
  forallb (fun x => forallb (fun y =>
     Bool.eqb (float_step x y) (exact_step x y)
     && Bool.eqb (exact_step x y) (negb (Byte.eqb x y))) all_bytes) all_bytes
  = true.
Proof. vm_compute. reflexivity. Qed.

Lemma float_step_exact (x y : byte) :
  float_step x y = exact_step x y /\ exact_step x y = negb (Byte.eqb x y).
Proof.
  pose proof float_step_table as H.
  rewrite forallb_forall in H. specialize (H x (all_bytes_complete x)).
  rewrite forallb_forall in H. specialize (H y (all_bytes_complete y)).
  apply andb_prop in H. destruct H as [H1 H2].
  apply Bool.eqb_prop in H1, H2. auto.
Qed.

Lemma length_zrange (n : nat) (a : Z) : length (zrange a n) = n.
Proof. revert a. induction n as [|n IH]; intros a; simpl; [|rewrite IH]; reflexivity. Qed.

Lemma in_zrange (n : nat) (a x : Z) :
  In x (zrange a n) <-> a <= x < a + Z.of_nat n.
Proof.
  revert a. induction n as [|n IH]; intros a; simpl.
  - lia.
  - rewrite IH. lia.
Qed.

Lemma zrange_snoc (n : nat) (a : Z) :
  zrange a (S n) = zrange a n ++ [a + Z.of_nat n].
Proof.
  revert a. induction n as [|n IH]; intros a.
  - simpl. now rewrite Z.add_0_r.
  - change (zrange a (S (S n))) with (a :: zrange (a + 1) (S n)).
    rewrite IH. simpl. do 3 f_equal. lia.
Qed.

(** The indices line 108 yields for a trace given by its samples: the [j]
    whose sample differs from the next one. *)
Lemma where_mask_map (f : Z -> byte) (n : nat) (a : Z) :
  Np.where_from a
    (Np.gt (Np.abs (Np.diff (Np.double (List.map f (zrange a (S n))))))
       Py.half)
  = List.filter (fun j => exact_step (f j) (f (j + 1))) (zrange a n).
Proof.
  revert a. induction n as [|n IH]; intros a.
  - reflexivity.
  - change (zrange a (S (S n))) with (a :: zrange (a + 1) (S n)).
    change (zrange a (S n)) with (a :: zrange (a + 1) n).
    specialize (IH (a + 1)).
    change (zrange (a + 1) (S n)) with (a + 1 :: zrange (a + 1 + 1) n) in *.
    cbn [List.map Np.double Np.diff Np.abs Np.gt Np.where_from List.filter] in *.
    fold (float_step (f a) (f (a + 1))).
    destruct (float_step_exact (f a) (f (a + 1))) as [-> _].
    destruct (exact_step (f a) (f (a + 1))); [f_equal|]; exact IH.
Qed.

Lemma map_sample_zrange (trace : list byte) :
  List.map (sample trace) (zrange 0 (length trace)) = trace.
Proof.
  assert (G : forall (l pre : list byte),
             List.map (sample (pre ++ l)) (zrange (Z.of_nat (length pre)) (length l)) = l).
  { induction l as [|x l IH]; intros pre; simpl; [reflexivity|].
    f_equal.
    - unfold sample. rewrite Nat2Z.id, app_nth2, Nat.sub_diag by lia. reflexivity.
    - specialize (IH (pre ++ [x])). rewrite <- app_assoc in IH. simpl in IH.
      rewrite length_app in IH. simpl in IH.
      replace (Z.of_nat (length pre) + 1) with (Z.of_nat (length pre + 1)) by lia.
      exact IH. }
  apply (G trace []).
Qed.

Lemma edge_indices_filter (trace : list byte) :
  edge_indices trace
  = List.filter (precedes_transition trace) (zrange 0 (length trace - 1)).
Proof.
  unfold edge_indices, Np.where_.
  destruct trace as [|x tl]; [reflexivity|].
  rewrite <- (map_sample_zrange (x :: tl)) at 1.
  cbn [length]. rewrite where_mask_map.
  replace (S (length tl) - 1)%nat with (length tl) by lia.
  reflexivity.
Qed.

(** * The steps of [make] *)

Lemma bind_lift_Ok {A B : Type} (a : A) (f : A -> M B) (db : Tables) :
  (lift (Ok a) ≫= f) db = f a db.
Proof. reflexivity. Qed.

Lemma bind_lift_Raise {A B : Type} (e : exn) (f : A -> M B) (db : Tables) :
  (lift (Raise e) ≫= f) db = (db, Raise e).
Proof. reflexivity. Qed.

Lemma record_probe_rate_present W dir p v db :
  probe_present W dir p v ->
  record_probe_rate W dir p db
  = (with_rows db [] [{| probe_key := p; ephys_sampling_rate := v |}], Ok tt).
Proof.
  intros (path & others & meta & Hg & Hm & Hv).
  unfold record_probe_rate. fold (imec_pattern p).
  rewrite Hg. cbn [Py.index0]. rewrite bind_lift_Ok, Hm, bind_lift_Ok.
  unfold Py.getitem. rewrite Hv, bind_lift_Ok.
  unfold ImecSamplingRate_insert1, with_rows. now rewrite app_nil_r.
Qed.

Lemma record_probe_rate_missing W dir p db :
  probe_missing W dir p ->
  record_probe_rate W dir p db = (db, Raise IndexError).
Proof.
  intros Hg. unfold record_probe_rate. fold (imec_pattern p).
  rewrite Hg. reflexivity.
Qed.

Lemma with_rows_nil db : with_rows db [] [] = db.
Proof. destruct db. unfold with_rows. cbn. now rewrite !app_nil_r. Qed.

Lemma with_rows_with_rows db a b c d :
  with_rows (with_rows db a b) c d = with_rows db (a ++ c) (b ++ d).
Proof. unfold with_rows. cbn. now rewrite !app_assoc. Qed.

Lemma for_each_cons {A : Type} (x : A) (tl : list A) (body : A -> M unit) db :
  for_each (x :: tl) body db
  = match body x db with
    | (db', Ok _) => for_each tl body db'
    | (db', Raise e) => (db', Raise e)
    end.
Proof. reflexivity. Qed.

(** The loop over probes whose files are all present adds one row per probe,
    in order. *)
Lemma for_each_present W dir ps vs db :
  Forall2 (probe_present W dir) ps vs ->
  for_each ps (record_probe_rate W dir) db
  = (with_rows db [] (rate_rows ps vs), Ok tt).
Proof.
  intros H. revert db. induction H as [|p v ps vs Hp _ IH]; intros db.
  - cbn. now rewrite with_rows_nil.
  - rewrite for_each_cons, (record_probe_rate_present _ _ _ _ _ Hp), IH.
    now rewrite with_rows_with_rows.
Qed.

(** The loop stops at the first probe whose file is missing. *)
Lemma for_each_missing W dir pre vs p post db :
  Forall2 (probe_present W dir) pre vs ->
  probe_missing W dir p ->
  for_each (pre ++ p :: post) (record_probe_rate W dir) db
  = (with_rows db [] (rate_rows pre vs), Raise IndexError).
Proof.
  intros H Hp. revert db. induction H as [|q v ps vs Hq _ IH]; intros db.
  - cbn [app]. rewrite for_each_cons, (record_probe_rate_missing _ _ _ _ Hp).
    cbn. now rewrite with_rows_nil.
  - cbn [app]. rewrite for_each_cons, (record_probe_rate_present _ _ _ _ _ Hq), IH.
    now rewrite with_rows_with_rows.
Qed.

(** The loop never touches the primary table. *)
Lemma for_each_BehaviorSync W dir ps db :
  BehaviorSync (fst (for_each ps (record_probe_rate W dir) db)) = BehaviorSync db.
Proof.
  revert db. induction ps as [|p ps IH]; intros db; [reflexivity|].
  rewrite for_each_cons.
  assert (Hb : BehaviorSync (fst (record_probe_rate W dir p db)) = BehaviorSync db).
  { unfold record_probe_rate.
    destruct (glob W dir _) as [|path others]; [reflexivity|].
    cbn [Py.index0]. rewrite bind_lift_Ok.
    destruct (readMeta W path) as [meta|e]; [|reflexivity].
    rewrite bind_lift_Ok.
    destruct (Py.getitem meta "imSampRate") as [v|e]; reflexivity. }
  destruct (record_probe_rate W dir p db) as [db' [[]|e]]; cbn [fst] in *.
  - now rewrite IH.
  - exact Hb.
Qed.

Section PrimaryStream.

Variables (W : World) (key : Key).
Variables (session_dir nidq_bin : string) (others : list string).
Variables (nidq_meta : Meta) (fileTimeSecs : string).

Hypothesis H_dir : fetch1_ephys_directory W key = Ok session_dir.
Hypothesis H_glob : glob W session_dir "*nidq.bin*" = nidq_bin :: others.
Hypothesis H_meta : readMeta W nidq_bin = Ok nidq_meta.
Hypothesis H_secs : nidq_meta !! "fileTimeSecs" = Some fileTimeSecs.

(** Lines 87-93 done, [make] continues from the parse of [fileTimeSecs]. *)
Lemma make_from_fileTimeSecs db :
  make W key db
  = match float_of_str W fileTimeSecs with
    | None => (db, Raise ValueError)
    | Some t_end =>
      match SampRate W nidq_meta with
      | Raise e => (db, Raise e)
      | Ok rate =>
        match Py.int (Py.fmul rate (Py.float_of_Z 0)) with
        | Raise e => (db, Raise e)
        | Ok first =>
          match Py.int (Py.fmul rate t_end) with
          | Raise e => (db, Raise e)
          | Ok last_plus_one =>
            match makeMemMapRaw W nidq_bin nidq_meta with
            | Raise e => (db, Raise e)
            | Ok raw =>
              after_extraction W key session_dir rate
                (ExtractDigital W raw first (last_plus_one - 1) 0
                   d_line_list nidq_meta) db
            end
          end
        end
      end
    end.
Proof.
  unfold make, get_session_directory.
  rewrite H_dir, bind_lift_Ok, H_glob. cbn [Py.index0].
  rewrite bind_lift_Ok, H_meta, bind_lift_Ok.
  unfold Py.getitem. rewrite H_secs, bind_lift_Ok.
  unfold np_float.
  destruct (float_of_str W fileTimeSecs) as [t_end|]; [|reflexivity].
  rewrite bind_lift_Ok.
  destruct (SampRate W nidq_meta) as [rate|e]; [|reflexivity].
  rewrite bind_lift_Ok.
  destruct (Py.int (Py.fmul rate (Py.float_of_Z 0))) as [first|e];
    [|reflexivity].
  rewrite bind_lift_Ok.
  destruct (Py.int (Py.fmul rate t_end)) as [lp1|e]; [|reflexivity].
  rewrite bind_lift_Ok.
  destruct (makeMemMapRaw W nidq_bin nidq_meta) as [raw|e]; [|reflexivity].
  rewrite bind_lift_Ok.
  reflexivity.
Qed.

End PrimaryStream.

(** * Properties of the edge indices *)

Lemma zrange_shift (n : nat) (a d : Z) :
  zrange (a + d) n = List.map (fun i => i + d) (zrange a n).
Proof.
  revert a. induction n as [|n IH]; intros a; [reflexivity|].
  cbn [zrange List.map]. f_equal.
  replace (a + d + 1) with (a + 1 + d) by lia. apply IH.
Qed.

Lemma filter_map_comm {A B : Type} (p : B -> bool) (g : A -> B) (l : list A) :
  List.filter p (List.map g l) = List.map g (List.filter (fun x => p (g x)) l).
Proof.
  induction l as [|x l IH]; [reflexivity|].
  cbn [List.map List.filter]. destruct (p (g x)); cbn [List.map]; now rewrite IH.
Qed.

Lemma is_transition_succ (trace : list byte) (j : Z) :
  is_transition trace (j + 1) = precedes_transition trace j.
Proof.
  unfold is_transition, precedes_transition.
  now replace (j + 1 - 1) with j by lia.
Qed.

Lemma transition_positions_shift (trace : list byte) :
  transition_positions trace
  = List.map (fun j => j + 1) (edge_indices trace).
Proof.
  unfold transition_positions. rewrite edge_indices_filter.
  change 1 with (0 + 1) at 1. rewrite zrange_shift, filter_map_comm.
  f_equal. apply List.filter_ext. intros j. apply is_transition_succ.
Qed.

Lemma sorted_zrange (n : nat) (a : Z) : StronglySorted Z.lt (zrange a n).
Proof.
  revert a. induction n as [|n IH]; intros a; cbn [zrange]; constructor.
  - apply IH.
  - apply List.Forall_forall. intros x Hx. apply in_zrange in Hx. lia.
Qed.

Lemma sorted_filter (p : Z -> bool) (l : list Z) :
  StronglySorted Z.lt l -> StronglySorted Z.lt (List.filter p l).
Proof.
  induction 1 as [|x l Hl IH Hx]; cbn [List.filter]; [constructor|].
  destruct (p x); [|exact IH].
  constructor; [exact IH|].
  apply List.Forall_forall. intros y Hy. apply List.filter_In in Hy.
  rewrite List.Forall_forall in Hx. apply Hx, Hy.
Qed.

(** The edge indices are strictly increasing and lie in [0 .. len - 2]. *)
Lemma edge_indices_sorted (trace : list byte) :
  StronglySorted Z.lt (edge_indices trace).
Proof. rewrite edge_indices_filter. apply sorted_filter, sorted_zrange. Qed.

Lemma edge_indices_bounds (trace : list byte) :
  List.Forall (fun j => 0 <= j < Z.of_nat (length trace) - 1) (edge_indices trace).
Proof.
  rewrite edge_indices_filter. apply List.Forall_forall. intros j Hj.
  apply List.filter_In in Hj. destruct Hj as [Hj _].
  apply in_zrange in Hj. lia.
Qed.

(** The mask of line 108 holds at [j] exactly when the two samples differ. *)
Lemma precedes_transition_differs (trace : list byte) (j : Z) :
  precedes_transition trace j
  = negb (Byte.eqb (sample trace j) (sample trace (j + 1))).
Proof.
  unfold precedes_transition.
  apply (float_step_exact (sample trace j) (sample trace (j + 1))).
Qed.

(** * Square waves *)

Lemma half_period_bounds (P : Z) : 2 <= P -> 0 < P / 2 < P /\ P - 1 <= 2 * (P / 2) <= P.
Proof. intros HP. pose proof (Z.div_mod P 2). pose proof (Z.mod_pos_bound P 2). lia. Qed.

Lemma mod_succ (P x : Z) :
  0 < P -> (x + 1) mod P = if x mod P =? P - 1 then 0 else x mod P + 1.
Proof.
  intros HP. pose proof (Z.div_mod x P ltac:(lia)) as Hx.
  pose proof (Z.mod_pos_bound x P HP) as Hr.
  destruct (Z.eqb_spec (x mod P) (P - 1)) as [E|E]; symmetry.
  - apply (Z.mod_unique _ _ (x / P + 1)); [lia|]. lia.
  - apply (Z.mod_unique _ _ (x / P)); [lia|]. lia.
Qed.

Lemma mod_add_small (P x d : Z) :
  0 < P -> 0 <= d -> x mod P + d < P -> (x + d) mod P = x mod P + d.
Proof.
  intros HP Hd Hs. pose proof (Z.div_mod x P ltac:(lia)) as Hx.
  pose proof (Z.mod_pos_bound x P HP) as Hr.
  symmetry. apply (Z.mod_unique _ _ (x / P)); lia.
Qed.

Lemma square_step (P phase j : Z) :
  2 <= P ->
  exact_step (square_level P phase j) (square_level P phase (j + 1))
  = is_boundary P (j + (1 + phase)).
Proof.
  intros HP. destruct (half_period_bounds P HP) as [Hh _].
  destruct (float_step_exact (square_level P phase j)
              (square_level P phase (j + 1))) as [_ ->].
  unfold square_level, is_boundary.
  replace (j + (1 + phase)) with (j + phase + 1) by lia.
  replace (j + 1 + phase) with (j + phase + 1) by lia.
  rewrite (mod_succ P (j + phase)) by lia.
  pose proof (Z.mod_pos_bound (j + phase) P ltac:(lia)) as Hr.
  destruct (Z.eqb_spec ((j + phase) mod P) (P - 1)) as [E|E].
  - rewrite E.
    destruct (Z.ltb_spec (P - 1) (P / 2)); [lia|].
    destruct (Z.ltb_spec 0 (P / 2)); [|lia].
    reflexivity.
  - destruct (Z.ltb_spec ((j + phase) mod P) (P / 2));
    destruct (Z.ltb_spec ((j + phase) mod P + 1) (P / 2));
    destruct (Z.eqb_spec ((j + phase) mod P + 1) 0);
    destruct (Z.eqb_spec ((j + phase) mod P + 1) (P / 2));
    try reflexivity; lia.
Qed.

(** The edges of a square wave, as the boundaries in a window of [N - 1]
    positions. *)
Lemma edge_indices_square (P phase : Z) (n : nat) :
  2 <= P ->
  List.map (fun j => j + (1 + phase)) (edge_indices (square_wave P phase (S n)))
  = List.filter (is_boundary P) (zrange (1 + phase) n).
Proof.
  intros HP. unfold edge_indices, square_wave, Np.where_.
  rewrite where_mask_map.
  pose proof (zrange_shift n 0 (1 + phase)) as E.
  rewrite Z.add_0_l in E. rewrite E, filter_map_comm. f_equal.
  apply List.filter_ext. intros j. now apply square_step.
Qed.

Lemma div_step (P x : Z) :
  0 < P -> x / P - (x - 1) / P = if x mod P =? 0 then 1 else 0.
Proof.
  intros HP. pose proof (Z.div_mod x P ltac:(lia)) as Hx.
  pose proof (Z.mod_pos_bound x P HP) as Hr.
  destruct (Z.eqb_spec (x mod P) 0) as [E|E].
  - rewrite <- (Z.div_unique (x - 1) P (x / P - 1) (P - 1)); lia.
  - rewrite <- (Z.div_unique (x - 1) P (x / P) (x mod P - 1)); lia.
Qed.

Lemma mod_eqb_shift (P c t : Z) :
  0 < P -> 0 <= c < P -> (t mod P =? c) = ((t - c) mod P =? 0).
Proof.
  intros HP Hc.
  pose proof (Z.div_mod t P ltac:(lia)) as Ht.
  pose proof (Z.mod_pos_bound t P HP) as Hr.
  pose proof (Z.div_mod (t - c) P ltac:(lia)) as Ht'.
  pose proof (Z.mod_pos_bound (t - c) P HP) as Hr'.
  destruct (Z.eqb_spec (t mod P) c) as [E|E];
  destruct (Z.eqb_spec ((t - c) mod P) 0) as [E'|E']; try reflexivity; exfalso.
  - apply E'. symmetry. apply (Z.mod_unique _ _ (t / P)); lia.
  - apply E. symmetry. apply (Z.mod_unique _ _ ((t - c) / P)); lia.
Qed.

(** How many positions of a window fall on a given residue. *)
Lemma count_residue (P c a : Z) (n : nat) :
  0 < P -> 0 <= c < P ->
  Z.of_nat (length (List.filter (fun t => t mod P =? c) (zrange a n)))
  = (a + Z.of_nat n - 1 - c) / P - (a - 1 - c) / P.
Proof.
  intros HP Hc. induction n as [|n IH].
  - cbn [zrange List.filter length]. rewrite Z.add_0_r. lia.
  - rewrite zrange_snoc, List.filter_app, length_app, Nat2Z.inj_add, IH.
    cbn [List.filter]. rewrite (mod_eqb_shift P c) by lia.
    pose proof (div_step P (a + Z.of_nat n - c) HP) as Hs.
    replace (a + Z.of_nat (S n) - 1 - c) with (a + Z.of_nat n - c) by lia.
    replace (a + Z.of_nat n - 1 - c) with (a + Z.of_nat n - c - 1) by lia.
    destruct ((a + Z.of_nat n - c) mod P =? 0); cbn [length]; lia.
Qed.

Lemma length_filter_orb {A : Type} (p q : A -> bool) (l : list A) :
  (forall x, p x = true -> q x = true -> False) ->
  length (List.filter (fun x => p x || q x) l)
  = (length (List.filter p l) + length (List.filter q l))%nat.
Proof.
  intros D. induction l as [|x l IH]; [reflexivity|].
  cbn [List.filter]. specialize (D x).
  destruct (p x), (q x); cbn [orb length];
    first [exfalso; now apply D | lia].
Qed.

(** The number of boundaries in a window of [n] positions starting after
    position [phase]. *)
Lemma count_boundaries (P phase : Z) (n : nat) :
  2 <= P ->
  Z.of_nat (length (List.filter (is_boundary P) (zrange (1 + phase) n)))
  = ((phase + Z.of_nat n) / P - phase / P)
    + ((phase + Z.of_nat n - P / 2) / P - (phase - P / 2) / P).
Proof.
  intros HP. destruct (half_period_bounds P HP) as [Hh _].
  unfold is_boundary.
  rewrite length_filter_orb.
  - rewrite Nat2Z.inj_add, !count_residue by lia.
    repeat match goal with |- context [?x / P] =>
      progress ring_simplify x end.
    f_equal; f_equal; f_equal; lia.
  - intros x H0 Hh'. apply Z.eqb_eq in H0, Hh'. lia.
Qed.

Lemma div_window (P x L : Z) :
  0 < P -> 0 <= L -> L / P <= (x + L) / P - x / P <= L / P + 1.
Proof.
  intros HP HL.
  pose proof (Z.div_mod x P ltac:(lia)). pose proof (Z.mod_pos_bound x P HP).
  pose proof (Z.div_mod L P ltac:(lia)). pose proof (Z.mod_pos_bound L P HP).
  pose proof (Z.div_mod (x + L) P ltac:(lia)).
  pose proof (Z.mod_pos_bound (x + L) P HP).
  assert (E : P * ((x + L) / P - x / P - L / P)
              = x mod P + L mod P - (x + L) mod P) by lia.
  assert (0 <= (x + L) / P - x / P - L / P <= 1) by nia.
  lia.
Qed.

Lemma not_both_multiples (P h u : Z) :
  0 < h < P -> u mod P = 0 -> (u - h) mod P = 0 -> False.
Proof.
  intros Hh H1 H2.
  pose proof (Z.div_mod u P ltac:(lia)).
  pose proof (Z.div_mod (u - h) P ltac:(lia)).
  assert (E : P * (u / P - (u - h) / P) = h) by lia.
  destruct (Z_le_gt_dec (u / P - (u - h) / P) 0); nia.
Qed.

(** The number of edges of a square wave of period [P] over [N] samples. *)
Lemma square_wave_edge_count (P phase : Z) (N : nat) :
  2 <= P ->
  2 * (Z.of_nat N / P) - 1
  <= Z.of_nat (length (edge_indices (square_wave P phase N)))
  <= 2 * (Z.of_nat N / P) + 2.
Proof.
  intros HP. destruct (half_period_bounds P HP) as [Hh _].
  destruct N as [|n].
  - cbn. rewrite Z.div_0_l by lia. lia.
  - rewrite <- (length_map (fun j => j + (1 + phase))).
    rewrite edge_indices_square, count_boundaries by exact HP.
    set (N := Z.of_nat (S n)). set (h := P / 2) in *.
    replace (Z.of_nat n) with (N - 1) by lia.
    pose proof (div_window P phase N ltac:(lia) ltac:(lia)) as W0.
    pose proof (div_window P (phase - h) N ltac:(lia) ltac:(lia)) as Wh.
    pose proof (div_step P (phase + N) ltac:(lia)) as S0.
    pose proof (div_step P (phase - h + N) ltac:(lia)) as Sh.
    replace (phase + (N - 1)) with (phase + N - 1) by lia.
    replace (phase + N - 1 - h) with (phase - h + N - 1) by lia.
    destruct (Z.eqb_spec ((phase + N) mod P) 0) as [E0|E0];
    destruct (Z.eqb_spec ((phase - h + N) mod P) 0) as [Eh|Eh];
      try lia.
    exfalso. apply (not_both_multiples P h (phase + N)); try lia.
    now replace (phase + N - h) with (phase - h + N) by lia.
Qed.

(** A wave that starts at the beginning of a half-period has at most one
    edge more than twice its number of whole periods. *)
Lemma square_wave_edge_count_aligned (P phase : Z) (N : nat) :
  2 <= P -> phase = 0 \/ phase = P / 2 ->
  Z.of_nat (length (edge_indices (square_wave P phase N)))
  <= 2 * (Z.of_nat N / P) + 1.
Proof.
  intros HP Hphase. destruct (half_period_bounds P HP) as [Hh _].
  destruct N as [|n].
  - cbn. rewrite Z.div_0_l by lia. lia.
  - rewrite <- (length_map (fun j => j + (1 + phase))).
    rewrite edge_indices_square, count_boundaries by exact HP.
    set (N := Z.of_nat (S n)). set (h := P / 2) in *.
    replace (Z.of_nat n) with (N - 1) by lia.
    assert (Hm : (N - 1) / P <= N / P) by (apply Z.div_le_mono; lia).
    assert (Hz : 0 / P = 0) by (apply Z.div_0_l; lia).
    assert (Hs : h / P = 0) by (apply Z.div_small; lia).
    assert (Hn : (- h) / P = -1).
    { symmetry. apply (Z.div_unique _ _ _ (P - h)); lia. }
    destruct Hphase as [-> | ->].
    + pose proof (div_window P (- h) (N - 1) ltac:(lia) ltac:(lia)) as Wh.
      replace (0 + (N - 1)) with (N - 1) by lia.
      replace (N - 1 - h) with (- h + (N - 1)) by lia.
      replace (0 - h) with (- h) by lia. lia.
    + pose proof (div_window P h (N - 1) ltac:(lia) ltac:(lia)) as W0.
      replace (h + (N - 1) - h) with (N - 1) by lia.
      replace (h - h) with 0 by lia. lia.
Qed.

Lemma filter_zrange_head (b : Z -> bool) (n : nat) (a y : Z) (l : list Z) :
  List.filter b (zrange a n) = y :: l ->
  a <= y /\ b y = true /\ forall z, a <= z < y -> b z = false.
Proof.
  revert a. induction n as [|n IH]; intros a; cbn [zrange List.filter].
  - discriminate.
  - destruct (b a) eqn:Ba.
    + intros [= <- _]. repeat split; [lia|exact Ba|]. intros z Hz. lia.
    + intros H. destruct (IH _ H) as (Hy & By & Hz).
      repeat split; [lia|exact By|].
      intros z Hz'. destruct (Z.eq_dec z a) as [->|]; [exact Ba|].
      apply Hz. lia.
Qed.

(** Two consecutive elements of a filtered window are two positions that
    pass the filter with none in between. *)
Lemma gaps_filter_zrange (b : Z -> bool) (G : Z -> Prop) :
  (forall x y, b x = true -> b y = true -> x < y ->
     (forall z, x < z < y -> b z = false) -> G (y - x)) ->
  forall (n : nat) (a : Z), List.Forall G (gaps (List.filter b (zrange a n))).
Proof.
  intros HG. induction n as [|n IH]; intros a; cbn [zrange List.filter].
  - constructor.
  - destruct (b a) eqn:Ba; [|apply IH].
    specialize (IH (a + 1)).
    destruct (List.filter b (zrange (a + 1) n)) as [|y l] eqn:E.
    + constructor.
    + cbn [gaps]. constructor; [|exact IH].
      destruct (filter_zrange_head _ _ _ _ _ E) as (Hy & By & Hz).
      apply HG; [exact Ba|exact By|lia|]. intros z Hz'. apply Hz. lia.
Qed.

Lemma gaps_map_shift (d : Z) (l : list Z) :
  gaps (List.map (fun j => j + d) l) = gaps l.
Proof.
  induction l as [|x [|y l] IH]; [reflexivity|reflexivity|].
  cbn [List.map gaps] in *. rewrite IH. f_equal. lia.
Qed.

(** From one boundary to the next there is one half-period. *)
Lemma boundary_gap (P x y : Z) :
  2 <= P -> is_boundary P x = true -> is_boundary P y = true -> x < y ->
  (forall z, x < z < y -> is_boundary P z = false) ->
  y - x = P / 2 \/ y - x = P - P / 2.
Proof.
  intros HP Bx By Hxy Hbetween.
  destruct (half_period_bounds P HP) as [Hh _].
  assert (Hnext : forall g, 0 < g -> x mod P + g < P \/ x mod P + g = P ->
            is_boundary P (x + g) = true ->
            (forall d, 0 < d < g -> is_boundary P (x + d) = false) ->
            y - x = g).
  { intros g Hg Hsum Bg Hnone.
    destruct (Z.lt_trichotomy y (x + g)) as [Hlt|[Heq|Hgt]]; [|lia|].
    - specialize (Hnone (y - x) ltac:(lia)).
      replace (x + (y - x)) with y in Hnone by lia. congruence.
    - specialize (Hbetween (x + g) ltac:(lia)). congruence. }
  pose proof (Z.mod_pos_bound x P ltac:(lia)) as Hr.
  assert (Hmid : forall c g d, x mod P = c -> 0 < d < g -> c + g <= P ->
            (c = 0 -> g = P / 2) -> (c = P / 2 -> g = P - P / 2) ->
            (c = 0 \/ c = P / 2) ->
            is_boundary P (x + d) = false).
  { intros c g d Hc Hd Hle H0 H1 Hcase. unfold is_boundary.
    rewrite (mod_add_small P x d) by lia.
    apply Bool.orb_false_iff. split; apply Z.eqb_neq; lia. }
  unfold is_boundary in Bx. apply Bool.orb_true_iff in Bx.
  destruct Bx as [B0|B1]; [apply Z.eqb_eq in B0|apply Z.eqb_eq in B1].
  - left. apply Hnext; [lia|lia| |].
    + unfold is_boundary. rewrite (mod_add_small P x (P / 2)) by lia.
      apply Bool.orb_true_iff. right. apply Z.eqb_eq. lia.
    + intros d Hd. apply (Hmid 0 (P / 2) d); auto; lia.
  - right. apply Hnext; [lia|lia| |].
    + unfold is_boundary.
      replace (x + (P - P / 2)) with (x + (P - P / 2 - 1) + 1) by lia.
      rewrite mod_succ, (mod_add_small P x (P - P / 2 - 1)) by lia.
      destruct (Z.eqb_spec (x mod P + (P - P / 2 - 1)) (P - 1)); [|lia].
      reflexivity.
    + intros d Hd. apply (Hmid (P / 2) (P - P / 2) d); auto; lia.
Qed.

(** Consecutive edges of a square wave are one half-period apart. *)
Lemma square_wave_edge_gaps (P phase : Z) (N : nat) :
  2 <= P ->
  List.Forall (fun g => g = P / 2 \/ g = P - P / 2)
    (gaps (edge_indices (square_wave P phase N))).
Proof.
  intros HP. destruct N as [|n]; [constructor|].
  rewrite <- (gaps_map_shift (1 + phase)), edge_indices_square by exact HP.
  apply gaps_filter_zrange. intros x y. now apply boundary_gap.
Qed.

(** Five periods of 2000 samples over 10000 samples: ten edges, or nine when
    an edge falls on the first sample. *)
Lemma five_cycles_edge_count (phase : Z) :
  length (edge_indices (square_wave 2000 phase (Z.to_nat 10000)))
  = if phase mod 1000 =? 0 then 9%nat else 10%nat.
Proof.
  apply Nat2Z.inj.
  rewrite <- (length_map (fun j => j + (1 + phase))).
  replace (Z.to_nat 10000) with (S (Z.to_nat 9999)) by reflexivity.
  rewrite edge_indices_square, count_boundaries by lia.
  change (2000 / 2) with 1000.
  rewrite (Z2Nat.id 9999) by lia.
  destruct (Z.eqb_spec (phase mod 1000) 0) as [E|E];
    Z.div_mod_to_equations; lia.
Qed.

(** * [make] after a successful primary pass *)

Lemma after_extraction_Ok W key dir rate arr line1 db :
  nth_error arr 1 = Some line1 ->
  after_extraction W key dir rate (Ok arr) db
  = for_each (fetch_ProbeInsertion W key) (record_probe_rate W dir)
      (with_rows db [primary_row key rate line1] []).
Proof.
  intros H. unfold after_extraction. rewrite bind_lift_Ok.
  unfold Np.row. rewrite H, bind_lift_Ok.
  unfold with_rows. cbn. now rewrite app_nil_r.
Qed.

Lemma after_extraction_Raise W key dir rate e db :
  after_extraction W key dir rate (Raise e) db = (db, Raise e).
Proof. reflexivity. Qed.

Lemma after_extraction_no_row W key dir rate arr db :
  nth_error arr 1 = None ->
  after_extraction W key dir rate (Ok arr) db = (db, Raise IndexError).
Proof.
  intros H. unfold after_extraction. rewrite bind_lift_Ok.
  unfold Np.row. now rewrite H.
Qed.

(** When lines 87-108 succeed, [make] inserts the primary row and enters the
    loop over the probes. *)
Lemma make_primary_ok W key dir rate line1 db :
  primary_stream_ok W key dir rate line1 ->
  make W key db
  = for_each (fetch_ProbeInsertion W key) (record_probe_rate W dir)
      (with_rows db [primary_row key rate line1] []).
Proof.
  intros (bin & others & meta & secs & t_end & first & lp1 & raw & arr
          & Hd & Hg & Hm & Hs & Hf & Hr & Hfirst & Hlast & Hraw & Hx & Hrow).
  rewrite (make_from_fileTimeSecs W key dir bin others meta secs Hd Hg Hm Hs).
  rewrite Hf, Hr, Hfirst, Hlast, Hraw, Hx.
  now apply after_extraction_Ok.
Qed.

(** [make] either completes lines 87-108 or raises with the tables as they
    were. *)
Lemma make_cases W key db :
  (exists dir rate line1, primary_stream_ok W key dir rate line1)
  \/ (exists e, make W key db = (db, Raise e)).
Proof.
  destruct (fetch1_ephys_directory W key) as [dir|e] eqn:Hd.
  2:{ right. exists e. unfold make, get_session_directory. now rewrite Hd. }
  destruct (glob W dir "*nidq.bin*") as [|bin others] eqn:Hg.
  { right. exists IndexError. unfold make, get_session_directory.
    now rewrite Hd, bind_lift_Ok, Hg. }
  destruct (readMeta W bin) as [meta|e] eqn:Hm.
  2:{ right. exists e. unfold make, get_session_directory.
      rewrite Hd, bind_lift_Ok, Hg. cbn [Py.index0].
      now rewrite bind_lift_Ok, Hm. }
  destruct (meta !! "fileTimeSecs") as [secs|] eqn:Hs.
  2:{ right. exists (KeyError "fileTimeSecs").
      unfold make, get_session_directory.
      rewrite Hd, bind_lift_Ok, Hg. cbn [Py.index0].
      rewrite bind_lift_Ok, Hm, bind_lift_Ok. unfold Py.getitem.
      now rewrite Hs. }
  rewrite (make_from_fileTimeSecs W key dir bin others meta secs Hd Hg Hm Hs).
  destruct (float_of_str W secs) as [t_end|] eqn:Hf; [|right; eauto].
  destruct (SampRate W meta) as [rate|e] eqn:Hr; [|right; eauto].
  destruct (Py.int (Py.fmul rate (Py.float_of_Z 0))) as [first|e] eqn:Hfirst;
    [|right; eauto].
  destruct (Py.int (Py.fmul rate t_end)) as [lp1|e] eqn:Hlast; [|right; eauto].
  destruct (makeMemMapRaw W bin meta) as [raw|e] eqn:Hraw; [|right; eauto].
  destruct (ExtractDigital W raw first (lp1 - 1) 0 d_line_list meta)
    as [arr|e] eqn:Hx; [|right; eauto].
  destruct (nth_error arr 1) as [line1|] eqn:Hrow.
  - left. exists dir, rate, line1.
    exists bin, others, meta, secs, t_end, first, lp1, raw, arr.
    repeat split; assumption.
  - right. exists IndexError. now apply after_extraction_no_row.
Qed.

(** [int(x * y)] returns only when both factors are finite. *)
Lemma int_fmul_Ok (x y : Py.float) (n : Z) :
  Py.int (Py.fmul x y) = Ok n -> Py.is_finite x = true /\ Py.is_finite y = true.
Proof.
  destruct x as [sx|sx| |sx mx ex], y as [sy|sy| |sy my ey];
    cbn; try discriminate; auto.
Qed.

(** [int(rate * 0)] is [0] for a finite rate. *)
Lemma int_fmul_zero (x : Py.float) :
  Py.is_finite x = true -> Py.int (Py.fmul x (Py.float_of_Z 0)) = Ok 0.
Proof. destruct x; cbn; try discriminate; reflexivity. Qed.

Lemma int_fmul_by_zero (x : Py.float) (s : bool) (n : Z) :
  Py.int (Py.fmul x (S754_zero s)) = Ok n -> n = 0.
Proof. destruct x; cbn; try discriminate; now intros [= <-]. Qed.

Lemma record_probe_rate_agree W W' dir p db :
  (forall d pattern, glob W' d pattern = glob W d pattern) ->
  (forall path, readMeta W' path = readMeta W path) ->
  record_probe_rate W' dir p db = record_probe_rate W dir p db.
Proof.
  intros Hg Hm. unfold record_probe_rate. rewrite Hg.
  destruct (glob W dir _) as [|path others]; [reflexivity|].
  cbn [Py.index0]. rewrite !bind_lift_Ok, Hm. reflexivity.
Qed.

Lemma for_each_agree W W' dir ps db :
  (forall d pattern, glob W' d pattern = glob W d pattern) ->
  (forall path, readMeta W' path = readMeta W path) ->
  for_each ps (record_probe_rate W' dir) db
  = for_each ps (record_probe_rate W dir) db.
Proof.
  intros Hg Hm. revert db. induction ps as [|p ps IH]; intros db; [reflexivity|].
  rewrite !for_each_cons, (record_probe_rate_agree W W' dir p db Hg Hm).
  destruct (record_probe_rate W dir p db) as [db' [[]|e]]; [apply IH|reflexivity].
Qed.

(** What one turn of the loop does, read back from its outcome. *)
Lemma record_probe_rate_inv W dir p db db' r :
  record_probe_rate W dir p db = (db', r) ->
  (r = Ok tt /\ exists v, probe_present W dir p v
     /\ db' = with_rows db [] [{| probe_key := p; ephys_sampling_rate := v |}])
  \/ (exists e, r = Raise e /\ db' = db).
Proof.
  unfold record_probe_rate. fold (imec_pattern p).
  destruct (glob W dir (imec_pattern p)) as [|path others] eqn:Hg.
  { intros [= <- <-]. right. eauto. }
  cbn [Py.index0]. rewrite bind_lift_Ok.
  destruct (readMeta W path) as [meta|e] eqn:Hm.
  2:{ intros [= <- <-]. right. eauto. }
  rewrite bind_lift_Ok. unfold Py.getitem.
  destruct (meta !! "imSampRate") as [v|] eqn:Hv.
  2:{ intros [= <- <-]. right. eauto. }
  rewrite bind_lift_Ok. unfold ImecSamplingRate_insert1.
  intros [= <- <-]. left. split; [reflexivity|]. exists v. split.
  - exists path, others, meta. auto.
  - unfold with_rows. now rewrite app_nil_r.
Qed.

(** When every probe's file is present, [make] completes with the primary
    row and one row per probe. *)
Lemma make_all_present W key dir rate line1 vs db :
  primary_stream_ok W key dir rate line1 ->
  Forall2 (probe_present W dir) (fetch_ProbeInsertion W key) vs ->
  make W key db
  = (with_rows db [primary_row key rate line1]
       (rate_rows (fetch_ProbeInsertion W key) vs), Ok tt).
Proof.
  intros Hp Hall.
  rewrite (make_primary_ok _ _ _ _ _ _ Hp), (for_each_present _ _ _ _ _ Hall).
  rewrite with_rows_with_rows. now rewrite app_nil_r.
Qed.

(** * The claims *)

(** C1 (as amended). For every session whose primary stream is processed
    successfully, a failure to locate a probe's binary file (no match for
    [*imec{n}/*.ap.bin]) aborts [make] with [IndexError] at that probe: the
    primary row (sampling rate and iteration index) has been inserted, and
    the probe-rate table has received exactly the entries of the probes
    enumerated before the first missing one; the probes after it are not
    processed. *)
Theorem C1_missing_probe_raises W key dir rate line1 pre vs p post db :
  primary_stream_ok W key dir rate line1 ->
  fetch_ProbeInsertion W key = pre ++ p :: post ->
  Forall2 (probe_present W dir) pre vs ->
  probe_missing W dir p ->
  make W key db
  = (with_rows db [primary_row key rate line1] (rate_rows pre vs),
     Raise IndexError).
Proof.
  intros Hp Hps Hpre Hmiss.
  rewrite (make_primary_ok _ _ _ _ _ _ Hp), Hps.
  rewrite (for_each_missing _ _ _ _ _ _ _ Hpre Hmiss).
  rewrite with_rows_with_rows. now rewrite app_nil_r.
Qed.

(** The demo sessions pass lines 87-108. *)
Ltac demo_primary secs rate words :=
  exists Demo.nidq_bin, [], (Demo.nidq_meta secs rate), secs,
    (Demo.float secs), 0, (Z.of_nat (length words)), [words],
    (Demo.lines_of words);
  repeat split; vm_compute; reflexivity.

Lemma two_probes_primary_ok :
  primary_stream_ok Demo.two_probes Demo.key Demo.dir (Demo.float "1000")
    Demo.short_line1.
Proof. demo_primary "0.008" "1000" Demo.short_words. Defined.

Lemma probe1_missing_primary_ok :
  primary_stream_ok Demo.probe1_missing Demo.key Demo.dir (Demo.float "1000")
    Demo.short_line1.
Proof. demo_primary "0.008" "1000" Demo.short_words. Defined.

Lemma demo_probe_present secs rate words present declared n v :
  default [] (Fixture.listing (Demo.session secs rate words present declared)
                !! imec_pattern (Demo.probe n)) = [Demo.imec_bin n] ->
  Fixture.sidecars (Demo.session secs rate words present declared)
    !! Demo.imec_bin n = Some {[ "imSampRate" := v ]} ->
  probe_present
    (Fixture.world (Demo.session secs rate words present declared))
    Demo.dir (Demo.probe n) v.
Proof.
  intros Hl Hs. exists (Demo.imec_bin n), [], {[ "imSampRate" := v ]}.
  repeat split.
  - cbn [glob Fixture.world Fixture.directory Demo.session]. 
    rewrite String.eqb_refl. exact Hl.
  - cbn [readMeta Fixture.world]. unfold Fixture.sglx_readMeta.
    now rewrite Hs.
Defined.

(** C1, witness: three probes declared, the file of probe 1 missing. The row
    of probe 0 is there, [make] raises at probe 1, probe 2 is never
    reached. *)
Lemma C1_missing_probe_raises_witness :
  make Demo.probe1_missing Demo.key no_rows
  = (with_rows no_rows
       [primary_row Demo.key (Demo.float "1000") Demo.short_line1]
       (rate_rows [Demo.probe 0] ["30000.5"]),
     Raise IndexError).
Proof.
  apply (C1_missing_probe_raises Demo.probe1_missing Demo.key Demo.dir
           (Demo.float "1000") Demo.short_line1
           [Demo.probe 0] ["30000.5"] (Demo.probe 1) [Demo.probe 2] no_rows).
  - exact probe1_missing_primary_ok.
  - reflexivity.
  - constructor; [|constructor].
    apply demo_probe_present; vm_compute; reflexivity.
  - vm_compute. reflexivity.
Defined.

(** C1, counterexample: two probes declared, the binary file of probe 0
    missing and that of probe 1 present. The primary stream is processed, yet
    [make] raises [IndexError] and the probe-rate table holds no entry: not
    the entry of probe 1, whose file is there. *)
Lemma C1_counterexample :
  primary_stream_ok Demo.probe0_missing Demo.key Demo.dir (Demo.float "1000")
    Demo.short_line1
  /\ fetch_ProbeInsertion Demo.probe0_missing Demo.key
     = [Demo.probe 0; Demo.probe 1]
  /\ probe_missing Demo.probe0_missing Demo.dir (Demo.probe 0)
  /\ probe_present Demo.probe0_missing Demo.dir (Demo.probe 1) "29999.8"
  /\ snd (make Demo.probe0_missing Demo.key no_rows) = Raise IndexError
  /\ ImecSamplingRate (fst (make Demo.probe0_missing Demo.key no_rows)) = [].
Proof.
  split; [demo_primary "0.008" "1000" Demo.short_words|].
  split; [reflexivity|].
  split; [vm_compute; reflexivity|].
  split; [apply demo_probe_present; vm_compute; reflexivity|].
  split; vm_compute; reflexivity.
Qed.

(** C2 (as amended). For every digital trace of line 1, the iteration-index
    sequence produced by edge detection is the ordered sequence of every
    index [j] such that [abs(trace[j+1] - trace[j]) > 0.5]: each rising or
    falling edge is reported at the last sample before the level change, one
    less than the index [i] with [abs(trace[i] - trace[i-1]) > 0.5]. *)
Theorem C2_edge_indices_precede_transitions (trace : list byte) :
  edge_indices trace
  = List.filter (precedes_transition trace) (zrange 0 (length trace - 1))
  /\ edge_indices trace
     = List.map (fun i => i - 1) (transition_positions trace).
Proof.
  split; [apply edge_indices_filter|].
  rewrite transition_positions_shift, List.map_map.
  rewrite <- (List.map_id (edge_indices trace)) at 1.
  apply List.map_ext. intros j. lia.
Qed.

(** C2, counterexample: on the trace [0, 1] the only index [i] with
    [abs(trace[i] - trace[i-1]) > 0.5] is [1]; line 108 yields [0]. *)
Lemma C2_counterexample :
  transition_positions [x00; x01] = [1]
  /\ edge_indices [x00; x01] = [0]
  /\ edge_indices [x00; x01] <> transition_positions [x00; x01].
Proof. repeat split; try (vm_compute; reflexivity). vm_compute. discriminate. Qed.

(** C3 (as amended). For every square wave of period [P >= 2] samples over
    [N] samples, whatever its phase, the edge detector returns twice
    [floor(N/P)] transition indices up to the boundary: at least
    [2*floor(N/P) - 1] and at most [2*floor(N/P) + 2], and at most
    [2*floor(N/P) + 1] when the trace starts at the beginning of a
    half-period; consecutive returned indices are [P/2] apart to within one
    sample. *)
Theorem C3_square_wave_edges (P phase : Z) (N : nat) :
  2 <= P ->
  2 * (Z.of_nat N / P) - 1
    <= Z.of_nat (length (edge_indices (square_wave P phase N)))
    <= 2 * (Z.of_nat N / P) + 2
  /\ (phase = 0 \/ phase = P / 2 ->
      Z.of_nat (length (edge_indices (square_wave P phase N)))
      <= 2 * (Z.of_nat N / P) + 1)
  /\ List.Forall (fun g => Z.abs (g - P / 2) <= 1)
       (gaps (edge_indices (square_wave P phase N))).
Proof.
  intros HP. split; [now apply square_wave_edge_count|].
  split; [now apply square_wave_edge_count_aligned|].
  destruct (half_period_bounds P HP) as [_ Hh].
  eapply List.Forall_impl; [|apply (square_wave_edge_gaps P phase N HP)].
  cbv beta. intros g [-> | ->]; lia.
Qed.

(** C3, witness: period 4 over 16 samples. *)
Lemma C3_square_wave_edges_witness :
  2 * (Z.of_nat 16 / 4) - 1
    <= Z.of_nat (length (edge_indices (square_wave 4 0 16)))
    <= 2 * (Z.of_nat 16 / 4) + 2
  /\ (0 = 0 \/ 0 = 4 / 2 ->
      Z.of_nat (length (edge_indices (square_wave 4 0 16)))
      <= 2 * (Z.of_nat 16 / 4) + 1)
  /\ List.Forall (fun g => Z.abs (g - 4 / 2) <= 1)
       (gaps (edge_indices (square_wave 4 0 16))).
Proof. apply (C3_square_wave_edges 4 0 16). lia. Defined.

(** C3, counterexample: a square wave of period 4 over 16 samples has 7
    edges, not [floor(16/4) = 4] give or take one. *)
Lemma C3_counterexample :
  length (edge_indices (square_wave 4 0 16)) = 7%nat
  /\ ~ (16 / 4 - 1 <= 7 <= 16 / 4 + 1).
Proof. split; [vm_compute; reflexivity|]. vm_compute. intros [_ H]. now apply H. Qed.

(** C4 (as amended). For a session whose primary metadata declares
    [fileTimeSecs = 10.0] and a sample rate of 1000, the extraction covers
    samples [0 .. 9999]; when line 1 carries a square wave of five periods
    of 2000 samples over that range, the iteration-index sequence has length
    10 (five rising and five falling edges), unless the recording starts on
    a level change, in which case that edge is not seen and the length is
    9. *)
Theorem C4_five_cycles W key dir bin others meta secs raw arr phase db :
  fetch1_ephys_directory W key = Ok dir ->
  glob W dir "*nidq.bin*" = bin :: others ->
  readMeta W bin = Ok meta ->
  meta !! "fileTimeSecs" = Some secs ->
  float_of_str W secs = Some (Py.float_of_Z 10) ->
  SampRate W meta = Ok (Py.float_of_Z 1000) ->
  makeMemMapRaw W bin meta = Ok raw ->
  ExtractDigital W raw 0 9999 0 d_line_list meta = Ok arr ->
  nth_error arr 1 = Some (square_wave 2000 phase (Z.to_nat 10000)) ->
  exists index,
    make W key db
    = for_each (fetch_ProbeInsertion W key) (record_probe_rate W dir)
        (with_rows db
           [{| session_key := key;
               nidq_sampling_rate := Py.float_of_Z 1000;
               iteration_index_nidq := index |}] [])
    /\ length index = if phase mod 1000 =? 0 then 9%nat else 10%nat.
Proof.
  intros Hd Hg Hm Hs Hf Hr Hraw Hx Hrow.
  exists (edge_indices (square_wave 2000 phase (Z.to_nat 10000))).
  split; [|apply five_cycles_edge_count].
  apply (make_primary_ok W key dir (Py.float_of_Z 1000)
           (square_wave 2000 phase (Z.to_nat 10000)) db).
  exists bin, others, meta, secs, (Py.float_of_Z 10), 0, 10000, raw, arr.
  repeat split; try assumption; vm_compute; reflexivity.
Qed.

(** C4, witness: five periods that start 500 samples into a period, so that
    all ten edges fall inside the recording. *)
Lemma C4_five_cycles_witness :
  exists index,
    make (Demo.five_cycles 500) Demo.key no_rows
    = for_each (fetch_ProbeInsertion (Demo.five_cycles 500) Demo.key)
        (record_probe_rate (Demo.five_cycles 500) Demo.dir)
        (with_rows no_rows
           [{| session_key := Demo.key;
               nidq_sampling_rate := Py.float_of_Z 1000;
               iteration_index_nidq := index |}] [])
    /\ length index = if 500 mod 1000 =? 0 then 9%nat else 10%nat.
Proof.
  apply (C4_five_cycles (Demo.five_cycles 500) Demo.key Demo.dir
           Demo.nidq_bin [] (Demo.nidq_meta "10.0" "1000") "10.0"
           [Demo.words_of_line1 (square_wave 2000 500 (Z.to_nat 10000))]
           (Demo.lines_of
              (Demo.words_of_line1 (square_wave 2000 500 (Z.to_nat 10000))))
           500 no_rows);
    vm_compute; reflexivity.
Defined.

(** C4, counterexample: ten seconds at 1000 Hz whose line 1 is five complete
    cycles, each of 1000 low then 1000 high samples. The fifth falling edge
    would come after the last sample: [make] succeeds with nine indices. *)
Lemma C4_counterexample :
  square_wave 2000 0 (Z.to_nat 10000)
  = List.concat (repeat (repeat x00 1000 ++ repeat x01 1000) 5)
  /\ float_of_str (Demo.five_cycles 0) "10.0" = Some (Py.float_of_Z 10)
  /\ SampRate (Demo.five_cycles 0) (Demo.nidq_meta "10.0" "1000")
     = Ok (Py.float_of_Z 1000)
  /\ snd (make (Demo.five_cycles 0) Demo.key no_rows) = Ok tt
  /\ List.map (fun r => length (iteration_index_nidq r))
       (BehaviorSync (fst (make (Demo.five_cycles 0) Demo.key no_rows)))
     = [9%nat].
Proof. repeat split; vm_compute; reflexivity. Qed.

(** C5 (as amended). In [make] the value of [fileTimeSecs] is parsed by
    [float]: when it is not numeric [make] raises [ValueError] (there is no
    [MetadataParseError]) and leaves the tables as they were; when it is, the
    parsed value is the duration used. The acquisition rate of the primary
    stream comes from [SampRate]. The [imSampRate] value of a probe's sidecar
    is recorded as the string it is, without a numeric parse. *)
Theorem C5_duration_parsed_probe_rate_verbatim
    W key dir bin others meta secs db :
  fetch1_ephys_directory W key = Ok dir ->
  glob W dir "*nidq.bin*" = bin :: others ->
  readMeta W bin = Ok meta ->
  meta !! "fileTimeSecs" = Some secs ->
  (float_of_str W secs = None -> make W key db = (db, Raise ValueError))
  /\ (forall t_end rate first last_plus_one raw,
        float_of_str W secs = Some t_end ->
        SampRate W meta = Ok rate ->
        Py.int (Py.fmul rate (Py.float_of_Z 0)) = Ok first ->
        Py.int (Py.fmul rate t_end) = Ok last_plus_one ->
        makeMemMapRaw W bin meta = Ok raw ->
        make W key db
        = after_extraction W key dir rate
            (ExtractDigital W raw first (last_plus_one - 1) 0 d_line_list meta)
            db)
  /\ (forall p v db',
        probe_present W dir p v ->
        record_probe_rate W dir p db'
        = (with_rows db' [] [{| probe_key := p; ephys_sampling_rate := v |}],
           Ok tt)).
Proof.
  intros Hd Hg Hm Hs.
  pose proof (make_from_fileTimeSecs W key dir bin others meta secs
                Hd Hg Hm Hs db) as E.
  split; [|split].
  - intros Hf. now rewrite Hf in E.
  - intros t_end rate first lp1 raw Hf Hr Hfirst Hlast Hraw.
    now rewrite Hf, Hr, Hfirst, Hlast, Hraw in E.
  - intros p v db'. apply record_probe_rate_present.
Qed.

(** C5, witness: a primary sidecar whose [fileTimeSecs] is the word "ten". *)
Lemma C5_duration_parsed_probe_rate_verbatim_witness :
  (float_of_str Demo.bad_duration "ten" = None ->
   make Demo.bad_duration Demo.key no_rows = (no_rows, Raise ValueError))
  /\ (forall t_end rate first last_plus_one raw,
        float_of_str Demo.bad_duration "ten" = Some t_end ->
        SampRate Demo.bad_duration (Demo.nidq_meta "ten" "1000") = Ok rate ->
        Py.int (Py.fmul rate (Py.float_of_Z 0)) = Ok first ->
        Py.int (Py.fmul rate t_end) = Ok last_plus_one ->
        makeMemMapRaw Demo.bad_duration Demo.nidq_bin
          (Demo.nidq_meta "ten" "1000") = Ok raw ->
        make Demo.bad_duration Demo.key no_rows
        = after_extraction Demo.bad_duration Demo.key Demo.dir rate
            (ExtractDigital Demo.bad_duration raw first (last_plus_one - 1) 0
               d_line_list (Demo.nidq_meta "ten" "1000"))
            no_rows)
  /\ (forall p v db',
        probe_present Demo.bad_duration Demo.dir p v ->
        record_probe_rate Demo.bad_duration Demo.dir p db'
        = (with_rows db' [] [{| probe_key := p; ephys_sampling_rate := v |}],
           Ok tt)).
Proof.
  apply (C5_duration_parsed_probe_rate_verbatim Demo.bad_duration Demo.key
           Demo.dir Demo.nidq_bin [] (Demo.nidq_meta "ten" "1000") "ten"
           no_rows);
    vm_compute; reflexivity.
Defined.

(** C5, counterexample: the sidecar of probe 0 gives [imSampRate=abc], which
    [float] refuses; [make] completes and the rate handed to [insert1] is the
    string "abc": the value went through no numeric parse and no exception
    was raised. And a primary sidecar with [fileTimeSecs=ten] makes [make]
    raise [ValueError], no [MetadataParseError]. *)
Lemma C5_counterexample :
  float_of_str Demo.bad_probe_rate "abc" = None
  /\ probe_present Demo.bad_probe_rate Demo.dir (Demo.probe 0) "abc"
  /\ snd (make Demo.bad_probe_rate Demo.key no_rows) = Ok tt
  /\ ImecSamplingRate (fst (make Demo.bad_probe_rate Demo.key no_rows))
     = [{| probe_key := Demo.probe 0; ephys_sampling_rate := "abc" |}]
  /\ make Demo.bad_duration Demo.key no_rows = (no_rows, Raise ValueError).
Proof.
  split; [vm_compute; reflexivity|].
  split; [apply demo_probe_present; vm_compute; reflexivity|].
  repeat split; vm_compute; reflexivity.
Qed.

(** C6. For every input, the iteration-index sequence [make] stores is a
    strictly increasing sequence of non-negative integers. [make] adds at
    most one row to [BehaviorSync], and exactly one when it returns
    normally. *)
Theorem C6_iteration_index_increasing W key db :
  exists new,
    BehaviorSync (fst (make W key db)) = BehaviorSync db ++ new
    /\ (length new <= 1)%nat
    /\ (snd (make W key db) = Ok tt -> length new = 1%nat)
    /\ List.Forall
         (fun r => StronglySorted Z.lt (iteration_index_nidq r)
                   /\ List.Forall (fun i => 0 <= i) (iteration_index_nidq r))
         new.
Proof.
  destruct (make_cases W key db) as [(dir & rate & line1 & Hp)|(e & He)].
  - exists [primary_row key rate line1].
    rewrite (make_primary_ok _ _ _ _ _ _ Hp), for_each_BehaviorSync.
    repeat split; auto.
    constructor; [|constructor]. split.
    + apply edge_indices_sorted.
    + eapply List.Forall_impl; [|apply edge_indices_bounds].
      cbv beta. intros j Hj. lia.
  - exists []. rewrite He. cbn [fst snd].
    repeat split; auto.
    + now rewrite app_nil_r.
    + discriminate.
Qed.

(** A trace without a transition has no edge index. *)
Lemma edge_indices_flat (line1 : list byte) :
  (forall i, 0 < i < Z.of_nat (length line1) -> is_transition line1 i = false) ->
  edge_indices line1 = [].
Proof.
  intros Hflat. rewrite edge_indices_filter.
  assert (G : forall l : list Z,
            (forall j, In j l -> precedes_transition line1 j = false) ->
            List.filter (precedes_transition line1) l = []).
  { induction l as [|j l IH]; intros Hl; [reflexivity|].
    cbn [List.filter]. rewrite (Hl j (or_introl eq_refl)).
    apply IH. intros k Hk. apply Hl. now right. }
  apply G. intros j Hj. apply in_zrange in Hj.
  rewrite <- is_transition_succ. apply Hflat. lia.
Qed.

(** C7. For every digital trace of line 1 without a level transition (no
    consecutive samples differ by more than 0.5 in absolute value), edge
    detection yields the empty sequence and [make] stores it as the
    session's iteration index: the primary row is inserted and the probes
    are processed as for any other session. *)
Theorem C7_no_transition_empty_index W key dir rate line1 db :
  primary_stream_ok W key dir rate line1 ->
  (forall i, 0 < i < Z.of_nat (length line1) -> is_transition line1 i = false) ->
  edge_indices line1 = []
  /\ make W key db
     = for_each (fetch_ProbeInsertion W key) (record_probe_rate W dir)
         (with_rows db
            [{| session_key := key;
                nidq_sampling_rate := rate;
                iteration_index_nidq := [] |}] [])
  /\ (forall vs,
        Forall2 (probe_present W dir) (fetch_ProbeInsertion W key) vs ->
        make W key db
        = (with_rows db
             [{| session_key := key;
                 nidq_sampling_rate := rate;
                 iteration_index_nidq := [] |}]
             (rate_rows (fetch_ProbeInsertion W key) vs),
           Ok tt)).
Proof.
  intros Hp Hflat.
  assert (E : edge_indices line1 = []).
  { now apply edge_indices_flat. }
  split; [exact E|].
  split.
  - rewrite (make_primary_ok _ _ _ _ _ _ Hp). unfold primary_row. now rewrite E.
  - intros vs Hall. rewrite (make_all_present _ _ _ _ _ _ _ Hp Hall).
    unfold primary_row. now rewrite E.
Qed.

Lemma flat_line_primary_ok :
  primary_stream_ok Demo.flat_line Demo.key Demo.dir (Demo.float "1000")
    (repeat x00 8).
Proof. demo_primary "0.008" "1000" [1; 0; 4; 4; 5; 1; 0; 0]. Defined.

(** C7, witness: eight samples whose line 1 stays low while lines 0 and 2
    move. *)
Lemma C7_no_transition_empty_index_witness :
  edge_indices (repeat x00 8) = []
  /\ make Demo.flat_line Demo.key no_rows
     = for_each (fetch_ProbeInsertion Demo.flat_line Demo.key)
         (record_probe_rate Demo.flat_line Demo.dir)
         (with_rows no_rows
            [{| session_key := Demo.key;
                nidq_sampling_rate := Demo.float "1000";
                iteration_index_nidq := [] |}] [])
  /\ (forall vs,
        Forall2 (probe_present Demo.flat_line Demo.dir)
          (fetch_ProbeInsertion Demo.flat_line Demo.key) vs ->
        make Demo.flat_line Demo.key no_rows
        = (with_rows no_rows
             [{| session_key := Demo.key;
                 nidq_sampling_rate := Demo.float "1000";
                 iteration_index_nidq := [] |}]
             (rate_rows (fetch_ProbeInsertion Demo.flat_line Demo.key) vs),
           Ok tt)).
Proof.
  apply (C7_no_transition_empty_index Demo.flat_line Demo.key Demo.dir
           (Demo.float "1000") (repeat x00 8) no_rows).
  - exact flat_line_primary_ok.
  - intros i Hi. cbn [repeat length] in Hi.
    assert (Hc : i = 1 \/ i = 2 \/ i = 3 \/ i = 4 \/ i = 5 \/ i = 6 \/ i = 7)
      by lia.
    destruct Hc as [->|[->|[->|[->|[->|[->| ->]]]]]]; reflexivity.
Defined.

(** C8. For every probe, the loop of lines 115-121 performs no digital
    extraction and no edge detection: its effect is the same whatever
    [makeMemMapRaw], [ExtractDigital], [SampRate] and [float] would return,
    it leaves [BehaviorSync] alone, and a turn that succeeds adds one row
    holding the [imSampRate] value of the probe's own sidecar; a turn that
    fails adds nothing. *)
Theorem C8_probe_rate_from_sidecar_only W dir ps p db :
  (forall W',
     (forall d pattern, glob W' d pattern = glob W d pattern) ->
     (forall path, readMeta W' path = readMeta W path) ->
     for_each ps (record_probe_rate W' dir) db
     = for_each ps (record_probe_rate W dir) db)
  /\ BehaviorSync (fst (for_each ps (record_probe_rate W dir) db))
     = BehaviorSync db
  /\ (forall db',
        record_probe_rate W dir p db = (db', Ok tt) ->
        exists v,
          probe_present W dir p v
          /\ db' = with_rows db []
                     [{| probe_key := p; ephys_sampling_rate := v |}])
  /\ (forall db' e, record_probe_rate W dir p db = (db', Raise e) -> db' = db).
Proof.
  split; [intros W' Hg Hm; now apply for_each_agree|].
  split; [apply for_each_BehaviorSync|].
  split.
  - intros db' H.
    destruct (record_probe_rate_inv _ _ _ _ _ _ H)
      as [(_ & v & Hv & ->)|(e & He & _)]; [eauto|discriminate].
  - intros db' e H.
    destruct (record_probe_rate_inv _ _ _ _ _ _ H)
      as [(He & _)|(e' & _ & ->)]; [discriminate|reflexivity].
Qed.

(** C9. The extracted sample range always begins at sample 0 and ends at
    [int(sampling_rate * fileTimeSecs) - 1]: with the metadata read, [make]
    continues with the outcome of [ExtractDigital] on that range. For
    [fileTimeSecs = 0] the last sample index is [-1], and that range is
    handed to [ExtractDigital] all the same. *)
Theorem C9_sample_range
    W key dir bin others meta secs t_end rate last_plus_one raw db :
  fetch1_ephys_directory W key = Ok dir ->
  glob W dir "*nidq.bin*" = bin :: others ->
  readMeta W bin = Ok meta ->
  meta !! "fileTimeSecs" = Some secs ->
  float_of_str W secs = Some t_end ->
  SampRate W meta = Ok rate ->
  Py.int (Py.fmul rate t_end) = Ok last_plus_one ->
  makeMemMapRaw W bin meta = Ok raw ->
  make W key db
  = after_extraction W key dir rate
      (ExtractDigital W raw 0 (last_plus_one - 1) 0 d_line_list meta) db
  /\ (forall s, t_end = S754_zero s -> last_plus_one - 1 = -1).
Proof.
  intros Hd Hg Hm Hs Hf Hr Hlast Hraw.
  destruct (int_fmul_Ok _ _ _ Hlast) as [Hfin _].
  split.
  - rewrite (make_from_fileTimeSecs W key dir bin others meta secs Hd Hg Hm Hs).
    now rewrite Hf, Hr, (int_fmul_zero rate Hfin), Hlast, Hraw.
  - intros s ->. apply int_fmul_by_zero in Hlast. lia.
Qed.

(** C9, witness: a recording of zero seconds. [ExtractDigital] is called on
    the range [0 .. -1]. *)
Lemma C9_sample_range_witness :
  make Demo.zero_duration Demo.key no_rows
  = after_extraction Demo.zero_duration Demo.key Demo.dir (Demo.float "1000")
      (ExtractDigital Demo.zero_duration [[]] 0 (0 - 1) 0 d_line_list
         (Demo.nidq_meta "0" "1000")) no_rows
  /\ (forall s, S754_zero false = S754_zero s -> 0 - 1 = -1).
Proof.
  apply (C9_sample_range Demo.zero_duration Demo.key Demo.dir Demo.nidq_bin []
           (Demo.nidq_meta "0" "1000") "0" (S754_zero false)
           (Demo.float "1000") 0 [[]] no_rows);
    vm_compute; reflexivity.
Defined.

Lemma same_metadata_two_probes :
  same_metadata Demo.two_probes Demo.two_probes_other_lines.
Proof. repeat split. Qed.

Lemma two_probes_other_lines_primary_ok :
  primary_stream_ok Demo.two_probes_other_lines Demo.key Demo.dir
    (Demo.float "1000") Demo.short_line1.
Proof. demo_primary "0.008" "1000" Demo.other_words. Defined.

(** C10. Lines 0 to 7 of digital word 0 are extracted in one pass, yet what
    [make] stores depends on line 1 only: two recordings with the same
    metadata whose extracted arrays have the same row 1 over the requested
    range lead to the same tables and the same outcome, whatever lines 0 and
    2-7 hold; the row stored is the sampling rate with the edge indices of
    row 1. *)
Theorem C10_only_line1_matters W1 W2 key dir1 dir2 rate1 rate2 line1 db :
  same_metadata W1 W2 ->
  primary_stream_ok W1 key dir1 rate1 line1 ->
  primary_stream_ok W2 key dir2 rate2 line1 ->
  make W1 key db = make W2 key db
  /\ rate1 = rate2
  /\ BehaviorSync (fst (make W1 key db))
     = BehaviorSync db ++ [primary_row key rate1 line1].
Proof.
  intros (Sd & Sg & Sf & Sm & Sr & Sp) H1 H2.
  assert (Hdir : dir1 = dir2 /\ rate1 = rate2).
  { destruct H1 as (b1 & o1 & m1 & s1 & t1 & f1 & l1 & r1 & a1
                    & Hd1 & Hg1 & Hm1 & _ & _ & Hr1 & _).
    destruct H2 as (b2 & o2 & m2 & s2 & t2 & f2 & l2 & r2 & a2
                    & Hd2 & Hg2 & Hm2 & _ & _ & Hr2 & _).
    rewrite Sd, Hd2 in Hd1. injection Hd1 as <-.
    rewrite Sg, Hg2 in Hg1. injection Hg1 as <- <-.
    rewrite Sm, Hm2 in Hm1. injection Hm1 as <-.
    rewrite Sr, Hr2 in Hr1. injection Hr1 as <-. auto. }
  destruct Hdir as [<- <-].
  rewrite (make_primary_ok _ _ _ _ _ _ H1), (make_primary_ok _ _ _ _ _ _ H2).
  split; [|split; [reflexivity|]].
  - rewrite Sp. apply for_each_agree; auto.
  - rewrite for_each_BehaviorSync. reflexivity.
Qed.

(** C10, witness: two recordings with the same line 1 and different lines 0,
    2 and 3. *)
Lemma C10_only_line1_matters_witness :
  make Demo.two_probes Demo.key no_rows
  = make Demo.two_probes_other_lines Demo.key no_rows
  /\ Demo.float "1000" = Demo.float "1000"
  /\ BehaviorSync (fst (make Demo.two_probes Demo.key no_rows))
     = BehaviorSync no_rows
       ++ [primary_row Demo.key (Demo.float "1000") Demo.short_line1].
Proof.
  apply (C10_only_line1_matters Demo.two_probes Demo.two_probes_other_lines
           Demo.key Demo.dir Demo.dir (Demo.float "1000") (Demo.float "1000")
           Demo.short_line1 no_rows).
  - exact same_metadata_two_probes.
  - exact two_probes_primary_ok.
  - exact two_probes_other_lines_primary_ok.
Defined.

(** * More on the edge indices *)

Lemma edge_mask_cons2 (x y : byte) (l : list byte) :
  edge_mask (x :: y :: l) = negb (Byte.eqb x y) :: edge_mask (y :: l).
Proof.
  unfold edge_mask. cbn [Np.double List.map Np.diff Np.abs Np.gt].
  fold (float_step x y).
  destruct (float_step_exact x y) as [-> ->]. reflexivity.
Qed.

Lemma edge_mask_short (l : list byte) :
  (length l <= 1)%nat -> edge_mask l = [].
Proof. destruct l as [|x [|y l]]; cbn [length]; [reflexivity|reflexivity|lia]. Qed.

Lemma where_from_shift (d i : Z) (mask : list bool) :
  Np.where_from (i + d) mask = List.map (fun j => j + d) (Np.where_from i mask).
Proof.
  revert i. induction mask as [|b mask IH]; intros i; [reflexivity|].
  cbn [Np.where_from]. replace (i + d + 1) with (i + 1 + d) by lia.
  rewrite IH. now destruct b.
Qed.

Lemma where_from_app (i : Z) (m1 m2 : list bool) :
  Np.where_from i (m1 ++ m2)
  = Np.where_from i m1 ++ Np.where_from (i + Z.of_nat (length m1)) m2.
Proof.
  revert i. induction m1 as [|b m1 IH]; intros i.
  - cbn. now rewrite Z.add_0_r.
  - cbn [app Np.where_from length]. rewrite IH.
    replace (i + 1 + Z.of_nat (length m1)) with (i + Z.of_nat (S (length m1)))
      by lia.
    now destruct b.
Qed.

Lemma where_from_lower (i : Z) (mask : list bool) :
  List.Forall (fun j => i <= j) (Np.where_from i mask).
Proof.
  revert i. induction mask as [|b mask IH]; intros i; [constructor|].
  cbn [Np.where_from].
  assert (H : List.Forall (fun j => i <= j) (Np.where_from (i + 1) mask)).
  { eapply List.Forall_impl; [|apply IH]. cbv beta. intros; lia. }
  destruct b; [constructor; [lia|exact H]|exact H].
Qed.

Lemma length_edge_mask (l : list byte) :
  length (edge_mask l) = (length l - 1)%nat.
Proof.
  induction l as [|x [|y l] IH]; [reflexivity|reflexivity|].
  rewrite edge_mask_cons2. cbn [length] in *. rewrite IH. lia.
Qed.

Lemma edge_mask_app (a : list byte) (x y : byte) (b : list byte) :
  edge_mask ((a ++ [x]) ++ y :: b)
  = edge_mask (a ++ [x]) ++ negb (Byte.eqb x y) :: edge_mask (y :: b).
Proof.
  induction a as [|z a IH].
  - cbn [app]. now rewrite edge_mask_cons2.
  - destruct a as [|w a]; cbn [app] in *.
    + rewrite (edge_mask_cons2 z x (y :: b)), (edge_mask_cons2 z x []), IH.
      reflexivity.
    + rewrite (edge_mask_cons2 z w ((a ++ [x]) ++ y :: b)).
      rewrite (edge_mask_cons2 z w (a ++ [x])), IH. reflexivity.
Qed.

(** X1. The edge indices of two chunks read one after the other: those of the
    first chunk, the junction when the level changes between the chunks, and
    those of the second chunk moved by the length of the first. *)
Theorem edge_indices_app (a : list byte) (x y : byte) (b : list byte) :
  edge_indices ((a ++ [x]) ++ y :: b)
  = edge_indices (a ++ [x])
    ++ (if Byte.eqb x y then [] else [Z.of_nat (length a)])
    ++ List.map (fun j => j + Z.of_nat (length (a ++ [x])))
         (edge_indices (y :: b)).
Proof.
  unfold edge_indices, Np.where_. fold (edge_mask ((a ++ [x]) ++ y :: b)).
  fold (edge_mask (a ++ [x])). fold (edge_mask (y :: b)).
  rewrite edge_mask_app, where_from_app, length_edge_mask, length_app.
  cbn [length Np.where_from].
  replace (0 + Z.of_nat (length a + 1 - 1)) with (Z.of_nat (length a)) by lia.
  f_equal.
  replace (Z.of_nat (length a) + 1) with (0 + Z.of_nat (length a + 1)) by lia.
  rewrite where_from_shift.
  now destruct (Byte.eqb x y).
Qed.

Lemma byte_eqb_refl (x : byte) : Byte.eqb x x = true.
Proof. now apply Byte.byte_dec_lb. Qed.

Lemma byte_eqb_neq (x y : byte) : Byte.eqb x y = false <-> x <> y.
Proof.
  split.
  - intros H ->. now rewrite byte_eqb_refl in H.
  - intros H. destruct (Byte.eqb x y) eqn:E; [|reflexivity].
    apply Byte.byte_dec_bl in E. contradiction.
Qed.

(** X2. An index is reported exactly when the sample there differs from the next
    one, by whatever amount; there are at most [len - 1] of them. *)
Theorem edge_index_iff_samples_differ (trace : list byte) (j : Z) :
  (In j (edge_indices trace)
   <-> 0 <= j < Z.of_nat (length trace) - 1
       /\ sample trace j <> sample trace (j + 1))
  /\ (length (edge_indices trace) <= length trace - 1)%nat.
Proof.
  split.
  - rewrite edge_indices_filter, List.filter_In, in_zrange.
    rewrite precedes_transition_differs, Bool.negb_true_iff, byte_eqb_neq.
    split; intros [Hj Hne]; (split; [lia|exact Hne]).
  - rewrite edge_indices_filter.
    etransitivity; [apply List.filter_length_le|]. now rewrite length_zrange.
Qed.

Lemma edge_mask_map (f : byte -> byte) (trace : list byte) :
  (forall x y, f x = f y -> x = y) ->
  edge_mask (List.map f trace) = edge_mask trace.
Proof.
  intros Hf. induction trace as [|x [|y l] IH]; [reflexivity|reflexivity|].
  cbn [List.map] in *. rewrite !edge_mask_cons2, IH. f_equal. f_equal.
  destruct (Byte.eqb x y) eqn:E.
  - apply Byte.byte_dec_bl in E. subst. apply byte_eqb_refl.
  - apply byte_eqb_neq. apply byte_eqb_neq in E. intros H. apply E. now apply Hf.
Qed.

(** X3. Relabelling the levels one-to-one (inverting the line, for instance)
    leaves the edge indices as they are. *)
Theorem edge_indices_relabel (f : byte -> byte) (trace : list byte) :
  (forall x y, f x = f y -> x = y) ->
  edge_indices (List.map f trace) = edge_indices trace.
Proof.
  intros Hf. unfold edge_indices, Np.where_.
  fold (edge_mask (List.map f trace)). fold (edge_mask trace).
  now rewrite edge_mask_map.
Qed.

Lemma invert_line_table :
  forallb (fun x => forallb (fun y =>
     implb (Byte.eqb (invert_line x) (invert_line y)) (Byte.eqb x y))
     all_bytes) all_bytes = true.
Proof. vm_compute. reflexivity. Qed.

Lemma invert_line_injective (x y : byte) :
  invert_line x = invert_line y -> x = y.
Proof.
  intros H. pose proof invert_line_table as T.
  rewrite forallb_forall in T. specialize (T x (all_bytes_complete x)).
  rewrite forallb_forall in T. specialize (T y (all_bytes_complete y)).
  rewrite H, byte_eqb_refl in T. now apply Byte.byte_dec_bl.
Qed.

(** X3, witness: the demo line and its inverse have the same edge indices. *)
Lemma edge_indices_relabel_witness :
  edge_indices (List.map invert_line Demo.short_line1)
  = edge_indices Demo.short_line1.
Proof.
  apply (edge_indices_relabel invert_line Demo.short_line1).
  exact invert_line_injective.
Defined.

Lemma rebuild_from_skip (i : Z) (level : byte) (n : nat) (edges : list Z) :
  List.Forall (fun j => i + 1 <= j) edges ->
  rebuild_from i level (S n) edges
  = level :: rebuild_from (i + 1) level n edges.
Proof.
  intros H. cbn [rebuild_from]. destruct edges as [|e es]; [reflexivity|].
  inversion H as [|? ? He _]; subst.
  destruct (Z.eqb_spec e i); [lia|reflexivity].
Qed.

Lemma binary_toggle (x y : byte) :
  (x = x00 \/ x = x01) -> (y = x00 \/ y = x01) -> x <> y -> toggle x = y.
Proof. intros [-> | ->] [-> | ->] H; try reflexivity; contradiction. Qed.

Lemma rebuild_from_edges (l : list byte) (x : byte) (i : Z) :
  is_binary (x :: l) ->
  rebuild_from i x (length (x :: l)) (Np.where_from i (edge_mask (x :: l)))
  = x :: l.
Proof.
  revert x i. induction l as [|y l IH]; intros x i Hb.
  - reflexivity.
  - inversion Hb as [|? ? Hx Hyl]; subst.
    pose proof Hyl as Hyl'. inversion Hyl' as [|? ? Hy _]; subst.
    rewrite edge_mask_cons2.
    change (length (x :: y :: l)) with (S (length (y :: l))).
    destruct (Byte.eqb x y) eqn:E; cbn [negb Np.where_from].
    + apply Byte.byte_dec_bl in E. subst y.
      rewrite rebuild_from_skip by apply where_from_lower.
      now rewrite IH.
    + apply byte_eqb_neq in E.
      cbn [rebuild_from]. rewrite Z.eqb_refl.
      rewrite (binary_toggle x y Hx Hy E).
      f_equal. now apply IH.
Qed.

(** X4. Round trip: a binary trace is recovered from its first sample, its
    length and its edge indices. *)
Theorem rebuild_edge_indices (trace : list byte) :
  is_binary trace ->
  rebuild_from 0 (first_sample trace) (length trace) (edge_indices trace)
  = trace.
Proof.
  intros Hb. destruct trace as [|x l]; [reflexivity|].
  apply (rebuild_from_edges l x 0 Hb).
Qed.

Lemma short_line1_binary : is_binary Demo.short_line1.
Proof.
  unfold is_binary, Demo.short_line1.
  repeat (constructor; [first [left; reflexivity | right; reflexivity]|]).
  constructor.
Qed.

(** X4, witness: the demo line is rebuilt from its edge indices. *)
Lemma rebuild_edge_indices_witness :
  rebuild_from 0 (first_sample Demo.short_line1) (length Demo.short_line1)
    (edge_indices Demo.short_line1)
  = Demo.short_line1.
Proof. apply (rebuild_edge_indices Demo.short_line1). exact short_line1_binary. Defined.

Lemma last_binary (l : list byte) (x : byte) :
  is_binary (x :: l) -> List.last (x :: l) x00 = x00 \/ List.last (x :: l) x00 = x01.
Proof.
  revert x. induction l as [|y l IH]; intros x Hb.
  - inversion Hb; subst; assumption.
  - inversion Hb; subst. change (List.last (x :: y :: l) x00) with (List.last (y :: l) x00).
    now apply IH.
Qed.

Lemma edge_count_parity_from (l : list byte) (x : byte) (i : Z) :
  is_binary (x :: l) ->
  Nat.even (length (Np.where_from i (edge_mask (x :: l))))
  = Byte.eqb x (List.last (x :: l) x00).
Proof.
  revert x i. induction l as [|y l IH]; intros x i Hb.
  - cbn. now rewrite byte_eqb_refl.
  - inversion Hb as [|? ? Hx Hyl]; subst.
    pose proof Hyl as Hyl'. inversion Hyl' as [|? ? Hy _]; subst.
    pose proof (last_binary l y Hyl) as Hlast.
    rewrite edge_mask_cons2.
    change (List.last (x :: y :: l) x00) with (List.last (y :: l) x00).
    specialize (IH y (i + 1) Hyl).
    destruct (Byte.eqb x y) eqn:E; cbn [negb Np.where_from].
    + apply Byte.byte_dec_bl in E. subst y. exact IH.
    + apply byte_eqb_neq in E.
      cbn [length]. rewrite Nat.even_succ, <- Nat.negb_even, IH.
      destruct Hx as [-> | ->], Hy as [-> | ->], Hlast as [-> | ->];
        try reflexivity; contradiction.
Qed.

(** X5. On a binary trace the number of edge indices is even exactly when the
    trace ends at the level it started at. *)
Theorem edge_count_parity (trace : list byte) :
  is_binary trace ->
  Nat.even (length (edge_indices trace))
  = Byte.eqb (first_sample trace) (last_sample trace).
Proof.
  intros Hb. destruct trace as [|x l]; [reflexivity|].
  apply (edge_count_parity_from l x 0 Hb).
Qed.

(** X5, witness: the demo line starts low and ends high, with three edges. *)
Lemma edge_count_parity_witness :
  Nat.even (length (edge_indices Demo.short_line1))
  = Byte.eqb (first_sample Demo.short_line1) (last_sample Demo.short_line1).
Proof. apply (edge_count_parity Demo.short_line1). exact short_line1_binary. Defined.

(** * More on [make] *)

Lemma rate_rows_cons p ps v vs :
  rate_rows (p :: ps) (v :: vs)
  = {| probe_key := p; ephys_sampling_rate := v |} :: rate_rows ps vs.
Proof. reflexivity. Qed.

(** The loop adds the rows of a leading part of the probes, in order, each
    with the [imSampRate] of the probe's sidecar; all of them when it
    completes. *)
Lemma for_each_shape W dir ps db :
  exists vs,
    fst (for_each ps (record_probe_rate W dir) db)
    = with_rows db [] (rate_rows ps vs)
    /\ (length vs <= length ps)%nat
    /\ (snd (for_each ps (record_probe_rate W dir) db) = Ok tt ->
        length vs = length ps)
    /\ Forall2 (probe_present W dir) (firstn (length vs) ps) vs.
Proof.
  revert db. induction ps as [|p ps IH]; intros db.
  - exists []. cbn. rewrite with_rows_nil. repeat split; auto.
  - rewrite for_each_cons.
    destruct (record_probe_rate W dir p db) as [db' r] eqn:E.
    destruct (record_probe_rate_inv _ _ _ _ _ _ E)
      as [(-> & v & Hv & ->)|(e & -> & ->)].
    + destruct (IH (with_rows db []
                      [{| probe_key := p; ephys_sampling_rate := v |}]))
        as (vs & Hfst & Hlen & Hok & Hall).
      exists (v :: vs). rewrite Hfst, with_rows_with_rows, rate_rows_cons.
      cbn [length firstn app]. repeat split; auto; try lia.
    + exists []. cbn [fst snd length firstn]. unfold rate_rows.
      rewrite with_rows_nil. repeat split; auto; try lia. discriminate.
Qed.

(** X6. [make] only appends: the tables it leaves are the tables it found, with
    at most one more primary row and the rate rows of a leading part of the
    session's probes, in order. Without a primary row nothing at all was
    added and [make] raised; when [make] returns normally there is one
    primary row and one rate row per probe. *)
Theorem make_appends_rows W key db :
  exists primary vs,
    fst (make W key db)
    = with_rows db primary (rate_rows (fetch_ProbeInsertion W key) vs)
    /\ (length primary <= 1)%nat
    /\ (length vs <= length (fetch_ProbeInsertion W key))%nat
    /\ (primary = [] ->
        vs = [] /\ exists e, snd (make W key db) = Raise e)
    /\ (snd (make W key db) = Ok tt ->
        length primary = 1%nat
        /\ length vs = length (fetch_ProbeInsertion W key)).
Proof.
  destruct (make_cases W key db) as [(dir & rate & line1 & Hp)|(e & He)].
  - rewrite (make_primary_ok _ _ _ _ _ _ Hp).
    destruct (for_each_shape W dir (fetch_ProbeInsertion W key)
                (with_rows db [primary_row key rate line1] []))
      as (vs & Hfst & Hlen & Hok & _).
    exists [primary_row key rate line1], vs.
    rewrite Hfst, with_rows_with_rows. cbn [app length].
    repeat split; auto; discriminate.
  - exists [], []. rewrite He. cbn [fst snd length]. unfold rate_rows.
    rewrite combine_nil, with_rows_nil.
    repeat split; auto; try lia; try discriminate. eauto.
Qed.

Lemma record_probe_rate_fails W dir p e db :
  probe_fails W dir p e ->
  record_probe_rate W dir p db = (db, Raise e).
Proof.
  unfold record_probe_rate. fold (imec_pattern p).
  intros [[Hg ->]|(path & others & Hg & [Hm|(meta & Hm & Hv & ->)])];
    rewrite Hg; cbn [Py.index0]; [reflexivity| |].
  - now rewrite bind_lift_Ok, Hm.
  - rewrite bind_lift_Ok, Hm, bind_lift_Ok. unfold Py.getitem. now rewrite Hv.
Qed.

Lemma probe_present_or_fails W dir p :
  (exists v, probe_present W dir p v) \/ (exists e, probe_fails W dir p e).
Proof.
  unfold probe_present, probe_fails.
  destruct (glob W dir (imec_pattern p)) as [|path others] eqn:Hg.
  { right. exists IndexError. left. auto. }
  destruct (readMeta W path) as [meta|e] eqn:Hm.
  2:{ right. exists e. right. exists path, others. auto. }
  destruct (meta !! "imSampRate") as [v|] eqn:Hv.
  - left. exists v, path, others, meta. auto.
  - right. exists (KeyError "imSampRate"). right. exists path, others.
    split; [reflexivity|]. right. exists meta. auto.
Qed.

Lemma for_each_fails W dir pre vs p post e db :
  Forall2 (probe_present W dir) pre vs ->
  probe_fails W dir p e ->
  for_each (pre ++ p :: post) (record_probe_rate W dir) db
  = (with_rows db [] (rate_rows pre vs), Raise e).
Proof.
  intros H Hp. revert db. induction H as [|q v ps vs Hq _ IH]; intros db.
  - cbn [app]. rewrite for_each_cons, (record_probe_rate_fails _ _ _ _ _ Hp).
    cbn. now rewrite with_rows_nil.
  - cbn [app]. rewrite for_each_cons, (record_probe_rate_present _ _ _ _ _ Hq), IH.
    now rewrite with_rows_with_rows.
Qed.

(** X7. Whatever makes a turn of the probe loop fail (binary file not found,
    sidecar unreadable, sidecar without [imSampRate]), [make] stops there
    with that turn's exception: the primary row and the rows of the probes
    before it are in the tables, the probes after it are not looked at.
    Every probe either has its rate recorded or fails in one of these three
    ways. *)
Theorem make_stops_at_first_failing_probe
    W key dir rate line1 pre vs p post e db :
  primary_stream_ok W key dir rate line1 ->
  fetch_ProbeInsertion W key = pre ++ p :: post ->
  Forall2 (probe_present W dir) pre vs ->
  probe_fails W dir p e ->
  make W key db
  = (with_rows db [primary_row key rate line1] (rate_rows pre vs), Raise e)
  /\ forall q,
       (exists v, probe_present W dir q v)
       \/ (exists e', probe_fails W dir q e').
Proof.
  intros Hp Hps Hpre Hfail. split; [|intros q; apply probe_present_or_fails].
  rewrite (make_primary_ok _ _ _ _ _ _ Hp), Hps.
  rewrite (for_each_fails _ _ _ _ _ _ _ _ Hpre Hfail).
  rewrite with_rows_with_rows. now rewrite app_nil_r.
Qed.

Lemma probe1_no_rate_key_primary_ok :
  primary_stream_ok Cases.probe1_no_rate_key Demo.key Demo.dir
    (Demo.float "1000") Demo.short_line1.
Proof. demo_primary "0.008" "1000" Demo.short_words. Defined.

(** X7, witness: the sidecar of probe 1 has no [imSampRate]; the row of probe 0
    is kept and probe 2 is not reached. *)
Lemma make_stops_at_first_failing_probe_witness :
  make Cases.probe1_no_rate_key Demo.key no_rows
  = (with_rows no_rows
       [primary_row Demo.key (Demo.float "1000") Demo.short_line1]
       (rate_rows [Demo.probe 0] ["30000.5"]),
     Raise (KeyError "imSampRate"))
  /\ forall q,
       (exists v, probe_present Cases.probe1_no_rate_key Demo.dir q v)
       \/ (exists e', probe_fails Cases.probe1_no_rate_key Demo.dir q e').
Proof.
  apply (make_stops_at_first_failing_probe Cases.probe1_no_rate_key Demo.key
           Demo.dir (Demo.float "1000") Demo.short_line1
           [Demo.probe 0] ["30000.5"] (Demo.probe 1) [Demo.probe 2]
           (KeyError "imSampRate") no_rows).
  - exact probe1_no_rate_key_primary_ok.
  - reflexivity.
  - constructor; [|constructor].
    exists (Demo.imec_bin 0), [], {[ "imSampRate" := "30000.5" ]}.
    repeat split; vm_compute; reflexivity.
  - right. exists (Demo.imec_bin 1), [].
    split; [vm_compute; reflexivity|].
    right. exists {[ "imDatPrb_type" := "0" ]}.
    repeat split; vm_compute; reflexivity.
Defined.

(** X8. When the primary stream cannot be looked up, [make] raises Python's own
    lookup error and leaves the tables as they were: [IndexError] when no
    file matches [*nidq.bin*], [KeyError] when the sidecar has no
    [fileTimeSecs]. *)
Theorem make_primary_lookup_errors W key dir db :
  fetch1_ephys_directory W key = Ok dir ->
  (glob W dir "*nidq.bin*" = [] -> make W key db = (db, Raise IndexError))
  /\ (forall bin others meta,
        glob W dir "*nidq.bin*" = bin :: others ->
        readMeta W bin = Ok meta ->
        meta !! "fileTimeSecs" = None ->
        make W key db = (db, Raise (KeyError "fileTimeSecs"))).
Proof.
  intros Hd. split.
  - intros Hg. unfold make, get_session_directory.
    now rewrite Hd, bind_lift_Ok, Hg.
  - intros bin others meta Hg Hm Hs. unfold make, get_session_directory.
    rewrite Hd, bind_lift_Ok, Hg. cbn [Py.index0].
    rewrite bind_lift_Ok, Hm, bind_lift_Ok. unfold Py.getitem. now rewrite Hs.
Qed.

(** X8, witness: an empty session directory. *)
Lemma make_primary_lookup_errors_witness :
  (glob Cases.empty_directory Demo.dir "*nidq.bin*" = [] ->
   make Cases.empty_directory Demo.key no_rows = (no_rows, Raise IndexError))
  /\ (forall bin others meta,
        glob Cases.empty_directory Demo.dir "*nidq.bin*" = bin :: others ->
        readMeta Cases.empty_directory bin = Ok meta ->
        meta !! "fileTimeSecs" = None ->
        make Cases.empty_directory Demo.key no_rows
        = (no_rows, Raise (KeyError "fileTimeSecs"))).
Proof.
  apply (make_primary_lookup_errors Cases.empty_directory Demo.key Demo.dir
           no_rows).
  reflexivity.
Defined.

(** X9. An exception of a helper ([fetch1], [readMeta], [SampRate],
    [makeMemMapRaw], [ExtractDigital]) leaves [make] as it is, with the
    tables as they were. *)
Theorem make_helper_errors_propagate W key db e :
  (fetch1_ephys_directory W key = Raise e -> make W key db = (db, Raise e))
  /\ (forall dir bin others,
        fetch1_ephys_directory W key = Ok dir ->
        glob W dir "*nidq.bin*" = bin :: others ->
        (readMeta W bin = Raise e -> make W key db = (db, Raise e))
        /\ (forall meta secs t_end,
              readMeta W bin = Ok meta ->
              meta !! "fileTimeSecs" = Some secs ->
              float_of_str W secs = Some t_end ->
              (SampRate W meta = Raise e -> make W key db = (db, Raise e))
              /\ (forall rate first last_plus_one,
                    SampRate W meta = Ok rate ->
                    Py.int (Py.fmul rate (Py.float_of_Z 0)) = Ok first ->
                    Py.int (Py.fmul rate t_end) = Ok last_plus_one ->
                    (makeMemMapRaw W bin meta = Raise e ->
                     make W key db = (db, Raise e))
                    /\ (forall raw,
                          makeMemMapRaw W bin meta = Ok raw ->
                          ExtractDigital W raw first (last_plus_one - 1) 0
                            d_line_list meta = Raise e ->
                          make W key db = (db, Raise e))))).
Proof.
  split.
  { intros Hd. unfold make, get_session_directory. now rewrite Hd. }
  intros dir bin others Hd Hg. split.
  { intros Hm. unfold make, get_session_directory.
    rewrite Hd, bind_lift_Ok, Hg. cbn [Py.index0].
    now rewrite bind_lift_Ok, Hm. }
  intros meta secs t_end Hm Hs Hf.
  pose proof (make_from_fileTimeSecs W key dir bin others meta secs
                Hd Hg Hm Hs db) as E.
  rewrite Hf in E. split.
  { intros Hr. now rewrite Hr in E. }
  intros rate first lp1 Hr Hfirst Hlast. rewrite Hr, Hfirst, Hlast in E.
  split.
  { intros Hraw. now rewrite Hraw in E. }
  intros raw Hraw Hx. now rewrite Hraw, Hx in E.
Qed.

(** X10. When [ExtractDigital] returns fewer than two lines, selecting row 1
    raises [IndexError] and nothing is inserted, although every file was
    read. *)
Theorem make_needs_line1
    W key dir bin others meta secs t_end rate first last_plus_one raw arr db :
  fetch1_ephys_directory W key = Ok dir ->
  glob W dir "*nidq.bin*" = bin :: others ->
  readMeta W bin = Ok meta ->
  meta !! "fileTimeSecs" = Some secs ->
  float_of_str W secs = Some t_end ->
  SampRate W meta = Ok rate ->
  Py.int (Py.fmul rate (Py.float_of_Z 0)) = Ok first ->
  Py.int (Py.fmul rate t_end) = Ok last_plus_one ->
  makeMemMapRaw W bin meta = Ok raw ->
  ExtractDigital W raw first (last_plus_one - 1) 0 d_line_list meta = Ok arr ->
  (length arr < 2)%nat ->
  make W key db = (db, Raise IndexError).
Proof.
  intros Hd Hg Hm Hs Hf Hr Hfirst Hlast Hraw Hx Hlen.
  rewrite (make_from_fileTimeSecs W key dir bin others meta secs Hd Hg Hm Hs).
  rewrite Hf, Hr, Hfirst, Hlast, Hraw, Hx.
  apply after_extraction_no_row. apply nth_error_None. lia.
Qed.

(** X10, witness: an extraction that returns one line. *)
Lemma make_needs_line1_witness :
  make Cases.one_line Demo.key no_rows = (no_rows, Raise IndexError).
Proof.
  apply (make_needs_line1 Cases.one_line Demo.key Demo.dir Demo.nidq_bin []
           (Demo.nidq_meta "0.008" "1000") "0.008" (Demo.float "0.008")
           (Demo.float "1000") 0 8 [Demo.short_words] [[x00; x01; x00]]
           no_rows);
    first [vm_compute; reflexivity | cbn [length]; lia].
Defined.

Example make_unmappable :
  make Cases.unmappable Demo.key no_rows
  = (no_rows, Raise (OtherError "CorruptRecordingError")).
Proof. vm_compute. reflexivity. Qed.

Lemma int_fmul_zero_not_finite (rate : Py.float) :
  Py.is_finite rate = false ->
  Py.int (Py.fmul rate (Py.float_of_Z 0)) = Raise ValueError.
Proof. destruct rate; cbn; try discriminate; reflexivity. Qed.

(** X11. Numbers that are not finite. A sampling rate that is infinite or NaN
    makes [make] raise [ValueError] at line 98, where it is multiplied by the
    start time 0. With a finite rate, a NaN duration raises [ValueError] and
    an infinite duration [OverflowError], or [ValueError] when the rate is
    zero. Nothing is inserted. *)
Theorem make_nonfinite_numbers W key dir bin others meta secs t_end rate db :
  fetch1_ephys_directory W key = Ok dir ->
  glob W dir "*nidq.bin*" = bin :: others ->
  readMeta W bin = Ok meta ->
  meta !! "fileTimeSecs" = Some secs ->
  float_of_str W secs = Some t_end ->
  SampRate W meta = Ok rate ->
  (Py.is_finite rate = false -> make W key db = (db, Raise ValueError))
  /\ (Py.is_finite rate = true -> float_is_nan t_end = true ->
      make W key db = (db, Raise ValueError))
  /\ (Py.is_finite rate = true -> float_is_zero rate = false ->
      float_is_inf t_end = true ->
      make W key db = (db, Raise OverflowError))
  /\ (float_is_zero rate = true -> float_is_inf t_end = true ->
      make W key db = (db, Raise ValueError)).
Proof.
  intros Hd Hg Hm Hs Hf Hr.
  rewrite (make_from_fileTimeSecs W key dir bin others meta secs Hd Hg Hm Hs).
  rewrite Hf, Hr.
  split; [|split; [|split]].
  - intros Hfin. now rewrite (int_fmul_zero_not_finite rate Hfin).
  - intros Hfin Hnan. rewrite (int_fmul_zero rate Hfin).
    destruct t_end; try discriminate. destruct rate; try discriminate; reflexivity.
  - intros Hfin Hz Hinf. rewrite (int_fmul_zero rate Hfin).
    destruct t_end; try discriminate. destruct rate; try discriminate; reflexivity.
  - intros Hz Hinf. destruct rate; try discriminate.
    destruct t_end; try discriminate. reflexivity.
Qed.

(** X11, witness: a sidecar with [fileTimeSecs=inf]. *)
Lemma make_nonfinite_numbers_witness :
  (Py.is_finite (Demo.float "1000") = false ->
   make Cases.infinite_duration Demo.key no_rows = (no_rows, Raise ValueError))
  /\ (Py.is_finite (Demo.float "1000") = true ->
      float_is_nan (S754_infinity false) = true ->
      make Cases.infinite_duration Demo.key no_rows
      = (no_rows, Raise ValueError))
  /\ (Py.is_finite (Demo.float "1000") = true ->
      float_is_zero (Demo.float "1000") = false ->
      float_is_inf (S754_infinity false) = true ->
      make Cases.infinite_duration Demo.key no_rows
      = (no_rows, Raise OverflowError))
  /\ (float_is_zero (Demo.float "1000") = true ->
      float_is_inf (S754_infinity false) = true ->
      make Cases.infinite_duration Demo.key no_rows
      = (no_rows, Raise ValueError)).
Proof.
  apply (make_nonfinite_numbers Cases.infinite_duration Demo.key Demo.dir
           Demo.nidq_bin [] (Demo.nidq_meta "inf" "1000") "inf"
           (S754_infinity false) (Demo.float "1000") no_rows);
    vm_compute; reflexivity.
Defined.

Lemma index0_hd_error {A : Type} (l l' : list A) :
  hd_error l = hd_error l' -> Py.index0 l = Py.index0 l'.
Proof. destruct l, l'; cbn; congruence. Qed.

Lemma record_probe_rate_first_match W g dir p db :
  (forall d pattern, hd_error (g d pattern) = hd_error (glob W d pattern)) ->
  record_probe_rate (with_glob W g) dir p db = record_probe_rate W dir p db.
Proof.
  intros H. unfold record_probe_rate. cbn [glob with_glob].
  now rewrite (index0_hd_error _ _ (H dir _)).
Qed.

Lemma for_each_first_match W g dir ps db :
  (forall d pattern, hd_error (g d pattern) = hd_error (glob W d pattern)) ->
  for_each ps (record_probe_rate (with_glob W g) dir) db
  = for_each ps (record_probe_rate W dir) db.
Proof.
  intros H. revert db. induction ps as [|p ps IH]; intros db; [reflexivity|].
  rewrite !for_each_cons, (record_probe_rate_first_match W g dir p db H).
  destruct (record_probe_rate W dir p db) as [db' [[]|e]]; [apply IH|reflexivity].
Qed.

(** X12. Only the first match of each glob pattern counts: listing more files
    after it changes nothing of what [make] does. *)
Theorem make_uses_first_match W g key db :
  (forall d pattern, hd_error (g d pattern) = hd_error (glob W d pattern)) ->
  make (with_glob W g) key db = make W key db.
Proof.
  intros H.
  destruct (fetch1_ephys_directory W key) as [dir|e] eqn:Hd.
  2:{ unfold make, get_session_directory. cbn [fetch1_ephys_directory with_glob].
      now rewrite Hd. }
  assert (Hd' : fetch1_ephys_directory (with_glob W g) key = Ok dir) by exact Hd.
  destruct (glob W dir "*nidq.bin*") as [|bin others] eqn:Hg.
  { assert (Hg' : glob (with_glob W g) dir "*nidq.bin*" = []).
    { specialize (H dir "*nidq.bin*"). rewrite Hg in H. cbn [glob with_glob].
      now destruct (g dir "*nidq.bin*"). }
    unfold make, get_session_directory.
    now rewrite Hd', Hd, !bind_lift_Ok, Hg', Hg. }
  assert (Hg' : exists others',
             glob (with_glob W g) dir "*nidq.bin*" = bin :: others').
  { specialize (H dir "*nidq.bin*"). rewrite Hg in H. cbn [glob with_glob].
    destruct (g dir "*nidq.bin*") as [|b o]; [discriminate|].
    injection H as ->. eauto. }
  destruct Hg' as [others' Hg'].
  destruct (readMeta W bin) as [meta|e] eqn:Hm.
  2:{ unfold make, get_session_directory.
      rewrite Hd', Hd, !bind_lift_Ok, Hg', Hg. cbn [Py.index0].
      rewrite !bind_lift_Ok. cbn [readMeta with_glob]. now rewrite Hm. }
  destruct (meta !! "fileTimeSecs") as [secs|] eqn:Hs.
  2:{ unfold make, get_session_directory.
      rewrite Hd', Hd, !bind_lift_Ok, Hg', Hg. cbn [Py.index0].
      rewrite !bind_lift_Ok. cbn [readMeta with_glob].
      rewrite Hm, !bind_lift_Ok. unfold Py.getitem. now rewrite Hs. }
  rewrite (make_from_fileTimeSecs (with_glob W g) key dir bin others' meta secs
             Hd' Hg' Hm Hs).
  rewrite (make_from_fileTimeSecs W key dir bin others meta secs Hd Hg Hm Hs).
  cbn [float_of_str SampRate makeMemMapRaw ExtractDigital with_glob].
  destruct (float_of_str W secs) as [t_end|]; [|reflexivity].
  destruct (SampRate W meta) as [rate|e]; [|reflexivity].
  destruct (Py.int (Py.fmul rate (Py.float_of_Z 0))) as [first|e];
    [|reflexivity].
  destruct (Py.int (Py.fmul rate t_end)) as [lp1|e]; [|reflexivity].
  destruct (makeMemMapRaw W bin meta) as [raw|e]; [|reflexivity].
  destruct (ExtractDigital W raw first (lp1 - 1) 0 d_line_list meta)
    as [arr|e]; [|reflexivity].
  destruct (nth_error arr 1) as [line1|] eqn:Hrow.
  - rewrite !(after_extraction_Ok _ _ _ _ _ _ _ Hrow).
    cbn [fetch_ProbeInsertion with_glob]. now apply for_each_first_match.
  - now rewrite !(after_extraction_no_row _ _ _ _ _ _ Hrow).
Qed.

(** X12, witness: the demo session with a second match for every pattern. *)
Lemma make_uses_first_match_witness :
  make Cases.two_matches Demo.key no_rows = make Demo.two_probes Demo.key no_rows.
Proof.
  apply (make_uses_first_match Demo.two_probes Cases.more_matches
           Demo.key no_rows).
  intros d pattern. unfold Cases.more_matches.
  destruct (glob Demo.two_probes d pattern); reflexivity.
Defined.

Example two_matches_listing :
  glob Cases.two_matches Demo.dir "*nidq.bin*"
  = [Demo.nidq_bin; (Demo.nidq_bin ++ ".bak")%string].
Proof. vm_compute. reflexivity. Qed.

(** Rounding keeps the sign it is given. *)
Lemma binary_round_aux_sign (s : bool) (m e : Z) (l : location) :
  match binary_round_aux Py.prec Py.emax s m e l with
  | S754_zero s' | S754_infinity s' | S754_finite s' _ _ => s' = s
  | S754_nan => True
  end.
Proof.
  unfold binary_round_aux.
  destruct (shr_fexp Py.prec Py.emax m e l) as [mrs' e'].
  destruct (shr_fexp Py.prec Py.emax _ e' loc_Exact) as [mrs'' e''].
  destruct (shr_m mrs''); [reflexivity| |exact I].
  destruct (e'' <=? Py.emax - Py.prec); reflexivity.
Qed.

Lemma int_sign (x : Py.float) (n : Z) :
  Py.int x = Ok n ->
  (signbit x = false -> 0 <= n) /\ (signbit x = true -> n <= 0).
Proof.
  destruct x as [s|s| |s m e]; cbn [Py.int signbit]; try discriminate.
  - intros [= <-]. lia.
  - intros [= <-].
    assert (0 <= Z.shiftl (Z.pos m) e) by (apply Z.shiftl_nonneg; lia).
    split; intros ->; cbn [cond_Zopp]; lia.
Qed.

Lemma fmul_sign (x y : Py.float) (n : Z) :
  Py.int (Py.fmul x y) = Ok n ->
  signbit (Py.fmul x y) = xorb (signbit x) (signbit y).
Proof.
  destruct x as [sx|sx| |sx mx ex], y as [sy|sy| |sy my ey];
    cbn [Py.fmul SFmul Py.int signbit]; try discriminate; try reflexivity.
  pose proof (binary_round_aux_sign (xorb sx sy) (Z.pos (mx * my)) (ex + ey)
                loc_Exact) as H.
  destruct (binary_round_aux Py.prec Py.emax (xorb sx sy) (Z.pos (mx * my))
              (ex + ey) loc_Exact); cbn [Py.int signbit];
    try discriminate; intros _; exact H.
Qed.

Lemma last_sample_index_sign (rate t_end : Py.float) (last : Z) :
  last_sample_index rate t_end = Ok last ->
  (signbit rate = signbit t_end -> -1 <= last)
  /\ (signbit rate <> signbit t_end -> last <= -1).
Proof.
  unfold last_sample_index.
  destruct (Py.int (Py.fmul rate t_end)) as [n|e] eqn:E; [|discriminate].
  intros [= <-].
  pose proof (fmul_sign rate t_end n E) as Hs.
  destruct (int_sign _ _ E) as [Hpos Hneg].
  split; intros H.
  - rewrite H, Bool.xorb_nilpotent in Hs. specialize (Hpos Hs). lia.
  - assert (Hx : xorb (signbit rate) (signbit t_end) = true)
      by (destruct (signbit rate), (signbit t_end); auto; contradiction).
    rewrite Hx in Hs. specialize (Hneg Hs). lia.
Qed.

(** X13. [make] hands [ExtractDigital] the range [0 .. last] with [last] the
    value of line 99. [last] is at least [-1] when the sampling rate and the
    duration have the same sign, and at most [-1] when their signs differ:
    with non-negative metadata the requested range is never worse than
    empty, and a negative duration always requests an empty or backward
    range, which [make] itself does not refuse. *)
Theorem make_requested_range_sign
    W key dir bin others meta secs t_end rate last raw db :
  fetch1_ephys_directory W key = Ok dir ->
  glob W dir "*nidq.bin*" = bin :: others ->
  readMeta W bin = Ok meta ->
  meta !! "fileTimeSecs" = Some secs ->
  float_of_str W secs = Some t_end ->
  SampRate W meta = Ok rate ->
  last_sample_index rate t_end = Ok last ->
  makeMemMapRaw W bin meta = Ok raw ->
  make W key db
  = after_extraction W key dir rate
      (ExtractDigital W raw 0 last 0 d_line_list meta) db
  /\ (signbit rate = signbit t_end -> -1 <= last)
  /\ (signbit rate <> signbit t_end -> last <= -1).
Proof.
  intros Hd Hg Hm Hs Hf Hr Hlast Hraw.
  split; [|now apply last_sample_index_sign].
  unfold last_sample_index in Hlast.
  destruct (Py.int (Py.fmul rate t_end)) as [n|e] eqn:E; [|discriminate].
  injection Hlast as <-.
  destruct (int_fmul_Ok _ _ _ E) as [Hfin _].
  rewrite (make_from_fileTimeSecs W key dir bin others meta secs Hd Hg Hm Hs).
  now rewrite Hf, Hr, (int_fmul_zero rate Hfin), E, Hraw.
Qed.

(** X13, witness: a recording declared to last -0.008 s at 1000 Hz; the range
    requested is [0 .. -9]. *)
Lemma make_requested_range_sign_witness :
  make Cases.negative_duration Demo.key no_rows
  = after_extraction Cases.negative_duration Demo.key Demo.dir
      (Demo.float "1000")
      (ExtractDigital Cases.negative_duration [Demo.short_words] 0 (-9) 0
         d_line_list (Demo.nidq_meta "-0.008" "1000")) no_rows
  /\ (signbit (Demo.float "1000") = signbit (Demo.float "-0.008") -> -1 <= -9)
  /\ (signbit (Demo.float "1000") <> signbit (Demo.float "-0.008") ->
      -9 <= -1).
Proof.
  apply (make_requested_range_sign Cases.negative_duration Demo.key Demo.dir
           Demo.nidq_bin [] (Demo.nidq_meta "-0.008" "1000") "-0.008"
           (Demo.float "-0.008") (Demo.float "1000") (-9)
           [Demo.short_words] no_rows);
    vm_compute; reflexivity.
Defined.

(** X14. A primary row is in the table only if lines 87-108 all succeeded, and it
    then holds the session's key, the rate [SampRate] returned and the edge
    indices of row 1 of the extracted array. *)
Theorem make_primary_row_content W key db row :
  BehaviorSync (fst (make W key db)) = BehaviorSync db ++ [row] ->
  exists dir rate line1,
    primary_stream_ok W key dir rate line1
    /\ row = primary_row key rate line1.
Proof.
  intros H.
  destruct (make_cases W key db) as [(dir & rate & line1 & Hp)|(e & He)].
  - exists dir, rate, line1. split; [exact Hp|].
    rewrite (make_primary_ok _ _ _ _ _ _ Hp), for_each_BehaviorSync in H.
    cbn [BehaviorSync with_rows] in H. apply app_inv_head in H.
    now injection H.
  - rewrite He in H. cbn [fst] in H.
    apply (f_equal (@length _)) in H. rewrite length_app in H.
    cbn [length] in H. lia.
Qed.

(** X14, witness: the row [make] inserts for the demo session. *)
Lemma make_primary_row_content_witness :
  exists dir rate line1,
    primary_stream_ok Demo.two_probes Demo.key dir rate line1
    /\ {| session_key := Demo.key;
          nidq_sampling_rate := Py.float_of_Z 1000;
          iteration_index_nidq := [1; 4; 6] |}
       = primary_row Demo.key rate line1.
Proof.
  apply (make_primary_row_content Demo.two_probes Demo.key no_rows).
  vm_compute. reflexivity.
Defined.

(** X15. [make] returns normally exactly when lines 87-108 succeed and every
    probe of the session has its binary file, a readable sidecar and an
    [imSampRate] in it. *)
Theorem make_returns_iff W key db :
  snd (make W key db) = Ok tt
  <-> exists dir rate line1 vs,
        primary_stream_ok W key dir rate line1
        /\ Forall2 (probe_present W dir) (fetch_ProbeInsertion W key) vs.
Proof.
  split.
  - intros H.
    destruct (make_cases W key db) as [(dir & rate & line1 & Hp)|(e & He)].
    + rewrite (make_primary_ok _ _ _ _ _ _ Hp) in H.
      destruct (for_each_shape W dir (fetch_ProbeInsertion W key)
                  (with_rows db [primary_row key rate line1] []))
        as (vs & _ & _ & Hok & Hall).
      exists dir, rate, line1, vs. split; [exact Hp|].
      rewrite (Hok H), firstn_all in Hall. exact Hall.
    + rewrite He in H. discriminate.
  - intros (dir & rate & line1 & vs & Hp & Hall).
    now rewrite (make_all_present _ _ _ _ _ _ _ Hp Hall).
Qed.

(** * The module's configuration *)

Lemma append_inj_l (p a b : string) : (p ++ a = p ++ b)%string -> a = b.
Proof.
  induction p as [|c p IH]; cbn; [auto|]. intros [= H]. auto.
Qed.

(** X16. The three schema names are built on the configured prefix and are
    pairwise distinct whatever the prefix; without a prefix each of them
    raises [KeyError]. *)
Theorem schema_names_distinct (config : Config) :
  (database_prefix config = None ->
   probe_schema_name config = Raise (KeyError "database.prefix")
   /\ ephys_schema_name config = Raise (KeyError "database.prefix")
   /\ reference_schema_name config = Raise (KeyError "database.prefix"))
  /\ (forall p, database_prefix config = Some p ->
      exists a b c,
        probe_schema_name config = Ok a
        /\ ephys_schema_name config = Ok b
        /\ reference_schema_name config = Ok c
        /\ a <> b /\ a <> c /\ b <> c).
Proof.
  unfold probe_schema_name, ephys_schema_name, reference_schema_name,
    config_prefix.
  split.
  - intros ->. auto.
  - intros p ->.
    exists (p ++ "probe_element")%string, (p ++ "ephys_element")%string,
      (p ++ "reference")%string.
    split; [reflexivity|]. split; [reflexivity|]. split; [reflexivity|].
    repeat split; intros H; apply append_inj_l in H; discriminate H.
Qed.

(** X17. [get_ephys_root_data_dir] returns a path exactly when a non-empty
    directory is configured under [custom]: a missing [custom] section, a
    missing key and an empty string all give [None], never the path of the
    empty string. *)
Theorem get_ephys_root_data_dir_cases (config : Config) :
  (get_ephys_root_data_dir config = None
   <-> custom config = None
       \/ exists c, custom config = Some c
            /\ (c !! "ephys_root_data_dir" = None
                \/ c !! "ephys_root_data_dir" = Some ""))
  /\ (forall p, get_ephys_root_data_dir config = Some p ->
      exists c d, custom config = Some c
        /\ c !! "ephys_root_data_dir" = Some d
        /\ d <> "" /\ p = PathOf d).
Proof.
  unfold get_ephys_root_data_dir. cbv zeta.
  destruct (custom config) as [c|]; unfold default; cbn [from_option id].
  - destruct (c !! "ephys_root_data_dir") as [d|] eqn:E; cbv beta iota.
    + destruct (String.eqb_spec d "") as [->|Hne].
      * split; [|intros p H; discriminate H]. split; [|reflexivity].
        intros _. right. exists c. auto.
      * split.
        -- split; [discriminate|].
           intros [H|(c' & [= <-] & [H|H])]; try discriminate.
           rewrite E in H. discriminate.
           rewrite E in H. injection H as ->. contradiction.
        -- intros p [= <-]. exists c, d. auto.
    + split; [|intros p H; discriminate H]. split; [|reflexivity].
      intros _. right. exists c. auto.
  - rewrite lookup_empty. split; [|intros p H; discriminate H].
    split; [auto|reflexivity].
Qed.
